(** * auto_update.py: daily closing prices into the store

    A shallow embedding of [src/auto_update.py].  The script reads the tracked
    instruments from the table [saham], asks the market-data provider for the
    last daily bar of each of them, writes the bar into [harga_saham_harian]
    (update when a row for the instrument and date exists, insert otherwise)
    and stamps the singleton row of [system_status].

    The store and the provider are outside the script.  They are modelled as
    a world (three tables, a counter of store requests, the list of provider
    requests, the log) together with an environment that fixes what the
    outside does: the wall clock, the provider's answer per symbol and the
    outcome of the n-th store request. *)

From Stdlib Require Import ZArith List Bool Ascii String Lia Sorted.
From Stdlib Require Import Floats.
Import ListNotations.

Local Open Scope string_scope.
Local Open Scope list_scope.
Local Open Scope Z_scope.

(** ** Calendar dates and clock times, as [datetime] has them *)

Record date := mkDate {
  year : Z;
  month : Z;
  day : Z
}.

(** [datetime.time]: naive time of day. *)
Record time := mkTime {
  hour : Z;
  minute : Z;
  second : Z;
  microsecond : Z
}.

(** An aware [datetime]: calendar date, time of day and the UTC offset of its
    time zone in minutes. *)
Record datetime := mkDatetime {
  dt_date : date;
  dt_time : time;
  utcoffset : Z
}.

Definition valid_time (t : time) : Prop :=
  0 <= hour t <= 23 /\ 0 <= minute t <= 59 /\ 0 <= second t <= 59 /\
  0 <= microsecond t <= 999999.

(** *** [date.weekday()]: Monday is 0, Sunday is 6 *)

Definition is_leap (y : Z) : bool :=
  (y mod 4 =? 0) && (negb (y mod 100 =? 0) || (y mod 400 =? 0)).

Definition days_before_year (y : Z) : Z :=
  let p := y - 1 in p * 365 + p / 4 - p / 100 + p / 400.

Definition DAYS_BEFORE_MONTH : list Z :=
  [0; 0; 31; 59; 90; 120; 151; 181; 212; 243; 273; 304; 334].

Definition days_before_month (y m : Z) : Z :=
  nth (Z.to_nat m) DAYS_BEFORE_MONTH 0 +
  (if (2 <? m) && is_leap y then 1 else 0).

Definition toordinal (d : date) : Z :=
  days_before_year (year d) + days_before_month (year d) (month d) + day d.

Definition weekday (d : date) : Z := (toordinal d + 6) mod 7.

(** *** [isoformat()] *)

Definition digit (n : Z) : ascii := ascii_of_nat (48 + Z.to_nat (n mod 10)).

(** [n] printed on exactly [w] decimal digits, zero padded (["%0wd"] for a
    number that fits). *)
Fixpoint zero_padded (w : nat) (n : Z) : string :=
  match w with
  | O => EmptyString
  | S w' => zero_padded w' (n / 10) ++ String (digit n) EmptyString
  end.

Definition date_isoformat (d : date) : string :=
  zero_padded 4 (year d) ++ "-" ++ zero_padded 2 (month d) ++ "-" ++
  zero_padded 2 (day d).

Definition time_isoformat (t : time) : string :=
  zero_padded 2 (hour t) ++ ":" ++ zero_padded 2 (minute t) ++ ":" ++
  zero_padded 2 (second t) ++
  (if microsecond t =? 0 then "" else "." ++ zero_padded 6 (microsecond t)).

Definition offset_isoformat (off : Z) : string :=
  (if off <? 0 then "-" else "+") ++
  zero_padded 2 (Z.abs off / 60) ++ ":" ++ zero_padded 2 (Z.abs off mod 60).

Definition datetime_isoformat (n : datetime) : string :=
  date_isoformat (dt_date n) ++ "T" ++ time_isoformat (dt_time n) ++
  offset_isoformat (utcoffset n).

(** *** Ordering of [time] values: the tuple (hour, minute, second,
    microsecond), compared from the left *)

Definition time_le (a b : time) : bool :=
  if hour a <? hour b then true
  else if hour b <? hour a then false
  else if minute a <? minute b then true
  else if minute b <? minute a then false
  else if second a <? second b then true
  else if second b <? second a then false
  else microsecond a <=? microsecond b.

(** ** The market-hours check *)

(** [ID_TZ = pytz.timezone("Asia/Jakarta")]: WIB, seven hours ahead of UTC. *)
Definition ID_TZ : Z := 420.

Definition is_market_hours (now_jkt : datetime) : bool :=
  if 5 <=? weekday (dt_date now_jkt) then false
  else
    let start := mkTime 9 0 0 0 in
    let end_ := mkTime 15 30 0 0 in
    time_le start (dt_time now_jkt) && time_le (dt_time now_jkt) end_.

(** The window of the specification, on the microseconds elapsed since
    midnight: from 09:00 to 15:30, both ends included. *)
Definition micros_of_time (t : time) : Z :=
  ((hour t * 60 + minute t) * 60 + second t) * 1000000 + microsecond t.

Definition in_trading_window (t : time) : Prop :=
  micros_of_time (mkTime 9 0 0 0) <= micros_of_time t <=
  micros_of_time (mkTime 15 30 0 0).

(** ** Rows of the three tables

    Columns that the script reads with [row.get] may hold SQL NULL, hence
    [option]. *)

Module Saham.
Record row := mkRow {
  id : Z;
  kode : option string;
  yahoo_symbol : option string;
  is_tracked : option bool
}.
End Saham.

Module Harga.
Record row := mkRow {
  id : Z;
  saham_id : Z;
  close_date : string;
  close_price : float
}.
End Harga.

Module Status.
Record row := mkRow {
  id : Z;
  last_auto_update_at : option string;
  last_out_of_hours_run : option string
}.
End Status.

(** The dict that [fetch_price] returns. *)
Module Price.
Record t := mk {
  date : string;
  close : float
}.
End Price.

(** ** The provider's answer *)

(** One daily bar of the history frame: its index value and its [Close]
    cell; [None] stands for a cell that [float()] rejects. *)
Record bar := mkBar {
  name : datetime;
  Close : option float
}.

Inductive exn :=
| RuntimeError (msg : string)
| StoreError (request : nat)
| ProviderError (symbol : string)
| ValueError.

Inductive history :=
| HistoryRaises (e : exn)
| HistoryFrame (rows : list bar).

(** ** Log records *)

Inductive level := INFO | WARNING.

Inductive message :=
| MsgFound (n : nat)
| MsgYfEmpty (symbol : string)
| MsgYfFailed (symbol : string) (e : exn)
| MsgRunOnce (ts : string) (market_hours : bool)
| MsgStart (ts : string) (today : string)
| MsgWillFetch (n : nat)
| MsgSkip (kode : option string)
| MsgNoData (symbol : option string) (kode : option string)
| MsgSaved (kode : option string) (symbol : option string)
    (date : string) (close : float) (action : string)
| MsgSaveFailed (kode : option string) (symbol : option string) (e : exn)
| MsgStatusFailed (e : exn).

(** ** The outside: environment and world *)

(** What becomes of one store request: it is served; it is refused and
    changes nothing; or its effect takes place and the answer is lost.  The
    last two reach the script as an exception. *)
Inductive outcome := Served | Refused | Lost.

Record env := mkEnv {
  os_getenv : string -> option string;
  clock_date : date;
  clock_time : time;
  yf_history : string -> string -> string -> history;
  store_outcome : nat -> outcome
}.

Record world := mkWorld {
  saham : list Saham.row;
  harga : list Harga.row;
  status : list Status.row;
  requests : nat;
  yf_requests : list (string * string * string);
  log : list (level * message)
}.

Definition set_harga (rows : list Harga.row) (w : world) : world :=
  mkWorld (saham w) rows (status w) (requests w) (yf_requests w) (log w).

Definition set_status (rows : list Status.row) (w : world) : world :=
  mkWorld (saham w) (harga w) rows (requests w) (yf_requests w) (log w).

Definition count_request (w : world) : world :=
  mkWorld (saham w) (harga w) (status w) (S (requests w)) (yf_requests w)
    (log w).

Definition add_yf_request (r : string * string * string) (w : world) : world :=
  mkWorld (saham w) (harga w) (status w) (requests w) (yf_requests w ++ [r])
    (log w).

Definition add_log (r : level * message) (w : world) : world :=
  mkWorld (saham w) (harga w) (status w) (requests w) (yf_requests w)
    (log w ++ [r]).

(** ** Computations: state passing with exceptions *)

Inductive result (A : Type) :=
| Ok (a : A)
| Raise (e : exn).

Arguments Ok {A} a.
Arguments Raise {A} e.

Definition M (A : Type) : Type := world -> result A * world.

Definition ret {A} (a : A) : M A := fun w => (Ok a, w).

Definition raise {A} (e : exn) : M A := fun w => (Raise e, w).

Definition bind {A B} (m : M A) (k : A -> M B) : M B :=
  fun w =>
    match m w with
    | (Ok a, w') => k a w'
    | (Raise e, w') => (Raise e, w')
    end.

(** [try: body except Exception as e: handler e]. *)
Definition try_except {A} (body : M A) (handler : exn -> M A) : M A :=
  fun w =>
    match body w with
    | (Ok a, w') => (Ok a, w')
    | (Raise e, w') => handler e w'
    end.

Declare Scope py_scope.
Delimit Scope py_scope with py.

Notation "x <- m ;; k" := (bind m (fun x => k))
  (at level 100, m at next level, right associativity) : py_scope.
Notation "m ;; k" := (bind m (fun _ => k))
  (at level 100, right associativity) : py_scope.

Local Open Scope py_scope.

Definition logging_info (m : message) : M unit :=
  fun w => (Ok tt, add_log (INFO, m) w).

Definition logging_warning (m : message) : M unit :=
  fun w => (Ok tt, add_log (WARNING, m) w).

(** [for x in xs: body x], for a body that falls through or continues. *)
Fixpoint for_each {A} (xs : list A) (body : A -> M unit) : M unit :=
  match xs with
  | [] => ret tt
  | x :: rest => body x ;; for_each rest body
  end.

(** ** The store, request by request *)

(** A request is what the store would do with it: the rows it answers with
    and the world it leaves. *)
Definition request (A : Type) : Type := world -> A * world.

(** [.select(...)] with its [.eq] filters as one predicate and an optional
    [.limit]. *)
Definition select {R} (table : world -> list R) (where_ : R -> bool)
    (limit : option nat) : request (list R) :=
  fun w =>
    let found := filter where_ (table w) in
    (match limit with Some n => firstn n found | None => found end, w).

(** [.update(...)]: every row that passes the filters is changed in place;
    the answer is the changed rows. *)
Definition update {R} (table : world -> list R)
    (store : list R -> world -> world) (change : R -> R) (where_ : R -> bool)
    : request (list R) :=
  fun w =>
    (map change (filter where_ (table w)),
     store (map (fun r => if where_ r then change r else r) (table w)) w).

(** [.insert(...)]: the new row goes to the end of the table. *)
Definition insert {R} (table : world -> list R)
    (store : list R -> world -> world) (new : list R -> R)
    : request (list R) :=
  fun w => let r := new (table w) in ([r], store (table w ++ [r]) w).

(** The key that the store gives to a row inserted without one. *)
Definition fresh_id (rows : list Harga.row) : Z :=
  1 + fold_right Z.max 0 (map Harga.id rows).

Section Program.

Variable E : env.

(** [.execute()]: the request is counted, then served, refused or lost as
    the environment says. *)
Definition execute {A} (q : request A) : M A :=
  fun w =>
    let n := requests w in
    let w1 := count_request w in
    match store_outcome E n with
    | Served => let (data, w2) := q w1 in (Ok data, w2)
    | Refused => (Raise (StoreError n), w1)
    | Lost => (Raise (StoreError n), snd (q w1))
    end.

(** ** Start-up: configuration and client *)

(** Truth value of an optional string: [None] and the empty string are
    false. *)
Definition truthy (v : option string) : bool :=
  match v with
  | None => false
  | Some s => negb (s =? "")%string
  end.

(** Python's [a or b]. *)
Definition py_or (a b : option string) : option string :=
  if truthy a then a else b.

(** [os.getenv], read after [load_dotenv()] has filled the environment. *)
Definition SUPABASE_URL : option string := os_getenv E "SUPABASE_URL".

Definition SUPABASE_KEY : option string :=
  py_or (os_getenv E "SUPABASE_SERVICE_ROLE_KEY")
        (os_getenv E "SUPABASE_ANON_KEY").

(** The client object: [create_client] only records the endpoint and the
    credential, it sends nothing. *)
Record client := mkClient {
  client_url : option string;
  client_key : option string
}.

Definition create_client (url key : option string) : client :=
  mkClient url key.

(** The top level of the module, down to the creation of the client. *)
Definition module_init : M client :=
  if negb (truthy SUPABASE_URL) || negb (truthy SUPABASE_KEY) then
    raise (RuntimeError
      "SUPABASE_URL / SUPABASE_SERVICE_ROLE_KEY belum di-set di .env")
  else
    ret (create_client SUPABASE_URL SUPABASE_KEY).

(** ** get_tracked_stocks *)

(** [.eq("is_tracked", True)]: neither NULL nor false matches. *)
Definition is_True (v : option bool) : bool :=
  match v with
  | Some true => true
  | _ => false
  end.

(** [row.get("yahoo_symbol") not in (None, "", "null")]. *)
Definition symbol_filled (v : option string) : bool :=
  match v with
  | None => false
  | Some s => negb (s =? "")%string && negb (s =? "null")%string
  end.

Definition tracked_query : request (list Saham.row) :=
  select saham (fun r => is_True (Saham.is_tracked r)) None.

Definition get_tracked_stocks : M (list Saham.row) :=
  data <- execute tracked_query ;;
  let stocks := filter (fun row => symbol_filled (Saham.yahoo_symbol row)) data in
  logging_info (MsgFound (List.length stocks)) ;;
  ret stocks.

(** ** fetch_price *)

(** [yf.Ticker(symbol).history(period, interval)]. *)
Definition ticker_history (symbol period interval : string) : M (list bar) :=
  fun w =>
    let w1 := add_yf_request (symbol, period, interval) w in
    match yf_history E symbol period interval with
    | HistoryRaises e => (Raise e, w1)
    | HistoryFrame rows => (Ok rows, w1)
    end.

(** [float(cell)]. *)
Definition to_float (cell : option float) : M float :=
  match cell with
  | Some f => ret f
  | None => raise ValueError
  end.

Definition fetch_price (symbol : string) : M (option Price.t) :=
  try_except
    (hist <- ticker_history symbol "5d" "1d" ;;
     match hist with
     | [] =>
         logging_warning (MsgYfEmpty symbol) ;;
         ret None
     | first_row :: others =>
         let last_row := last others first_row in
         let date_str := date_isoformat (dt_date (name last_row)) in
         close_price <- to_float (Close last_row) ;;
         ret (Some (Price.mk date_str close_price))
     end)
    (fun e =>
       logging_warning (MsgYfFailed symbol e) ;;
       ret None).

(** ** save_price_to_supabase *)

(** [.eq("saham_id", saham_id).eq("close_date", close_date)]. *)
Definition for_pair (saham_id : Z) (close_date : string) (r : Harga.row)
    : bool :=
  (Harga.saham_id r =? saham_id) && (Harga.close_date r =? close_date)%string.

Definition harga_check (saham_id : Z) (close_date : string)
    : request (list Harga.row) :=
  select harga (for_pair saham_id close_date) (Some 1%nat).

(** The row [r] after [.update({"close_price": close_price})]. *)
Definition with_close_price (close_price : float) (r : Harga.row)
    : Harga.row :=
  Harga.mkRow (Harga.id r) (Harga.saham_id r) (Harga.close_date r) close_price.

Definition harga_update (harga_id : Z) (close_price : float)
    : request (list Harga.row) :=
  update harga set_harga (with_close_price close_price)
    (fun r => Harga.id r =? harga_id).

Definition harga_insert (saham_id : Z) (close_date : string)
    (close_price : float) : request (list Harga.row) :=
  insert harga set_harga
    (fun rows => Harga.mkRow (fresh_id rows) saham_id close_date close_price).

Definition save_price_to_supabase (stock : Saham.row) (data : Price.t)
    : M string :=
  let saham_id := Saham.id stock in
  let close_date := Price.date data in
  let close_price := Price.close data in
  existing <- execute (harga_check saham_id close_date) ;;
  match existing with
  | found :: _ =>
      let harga_id := Harga.id found in
      execute (harga_update harga_id close_price) ;;
      ret "update"
  | [] =>
      execute (harga_insert saham_id close_date close_price) ;;
      ret "insert"
  end.

(** ** update_system_status *)

Inductive status_field := last_auto_update_at | last_out_of_hours_run.

Definition set_field (field : status_field) (ts : string) (r : Status.row)
    : Status.row :=
  match field with
  | last_auto_update_at =>
      Status.mkRow (Status.id r) (Some ts) (Status.last_out_of_hours_run r)
  | last_out_of_hours_run =>
      Status.mkRow (Status.id r) (Status.last_auto_update_at r) (Some ts)
  end.

Definition status_update (field : status_field) (ts : string)
    : request (list Status.row) :=
  update status set_status (set_field field ts) (fun r => Status.id r =? 1).

Definition status_insert (field : status_field) (ts : string)
    : request (list Status.row) :=
  insert status set_status
    (fun _ => set_field field ts (Status.mkRow 1 None None)).

Definition update_system_status (now_jkt : datetime) (market_hours : bool)
    : M unit :=
  let ts_iso := datetime_isoformat now_jkt in
  let field :=
    if market_hours then last_auto_update_at else last_out_of_hours_run in
  data <- execute (status_update field ts_iso) ;;
  match data with
  | [] =>
      execute (status_insert field ts_iso) ;;
      ret tt
  | _ :: _ => ret tt
  end.

(** ** run_once *)

Definition datetime_now (tz : Z) : datetime :=
  mkDatetime (clock_date E) (clock_time E) tz.

(** The body of the loop over the tracked instruments. *)
Definition process_stock (stock : Saham.row) : M unit :=
  let kode := Saham.kode stock in
  let symbol := Saham.yahoo_symbol stock in
  match symbol with
  | None | Some EmptyString =>
      logging_warning (MsgSkip kode)
  | Some sym =>
      price <- fetch_price sym ;;
      match price with
      | None => logging_warning (MsgNoData symbol kode)
      | Some p =>
          try_except
            (action <- save_price_to_supabase stock p ;;
             logging_info
               (MsgSaved kode symbol (Price.date p) (Price.close p) action))
            (fun e => logging_warning (MsgSaveFailed kode symbol e))
      end
  end.

Definition run_once : M unit :=
  let now_jkt := datetime_now ID_TZ in
  let market_hours := is_market_hours now_jkt in
  logging_info (MsgRunOnce (datetime_isoformat now_jkt) market_hours) ;;
  logging_info (MsgStart (datetime_isoformat now_jkt)
                  (date_isoformat (dt_date now_jkt))) ;;
  stocks <- get_tracked_stocks ;;
  logging_info (MsgWillFetch (List.length stocks)) ;;
  for_each stocks process_stock ;;
  try_except
    (update_system_status now_jkt market_hours)
    (fun e => logging_warning (MsgStatusFailed e)).

(** The script as a whole: the module's top level, then [run_once()]. *)
Definition main : M unit :=
  module_init ;;
  run_once.

End Program.

(** * Vocabulary of the properties *)

Definition is_weekend (d : date) : Prop := weekday d = 5 \/ weekday d = 6.

(** The rows of the price table for one instrument and one date. *)
Definition rows_for (X : Z) (D : string) (rows : list Harga.row)
    : list Harga.row :=
  filter (for_pair X D) rows.

(** The invariant of the price table: no instrument has two rows for one
    date. *)
Definition one_row_per_pair (rows : list Harga.row) : Prop :=
  forall X D, (List.length (rows_for X D rows) <= 1)%nat.

(** The price table after [.update({"close_price": P}).eq("id", harga_id)]
    has taken effect. *)
Definition repriced (harga_id : Z) (P : float) (rows : list Harga.row)
    : list Harga.row :=
  map (fun r => if Harga.id r =? harga_id then with_close_price P r else r)
    rows.

(** The row that the insert branch adds to the table [rows]. *)
Definition inserted (X : Z) (D : string) (P : float) (rows : list Harga.row)
    : Harga.row :=
  Harga.mkRow (fresh_id rows) X D P.

(** A computation keeps a property of the world, however it ends. *)
Definition preserves {A} (I : world -> Prop) (m : M A) : Prop :=
  forall w, I w -> I (snd (m w)).

(** A computation ends without an exception from every world. *)
Definition returns_normally {A} (m : M A) : Prop :=
  forall w, exists a, fst (m w) = Ok a.

(** The store serves the [k] requests that follow the first [n]. *)
Definition served (E : env) (n k : nat) : Prop :=
  forall i, (n <= i < n + k)%nat -> store_outcome E i = Served.

(** The timestamp column that a run with flag [B] writes, and the one it
    leaves alone. *)
Definition selected_field (B : bool) (r : Status.row) : option string :=
  if B then Status.last_auto_update_at r else Status.last_out_of_hours_run r.

Definition other_field (B : bool) (r : Status.row) : option string :=
  if B then Status.last_out_of_hours_run r else Status.last_auto_update_at r.

Definition has_singleton (rows : list Status.row) : bool :=
  existsb (fun r => Status.id r =? 1) rows.

(** The instruments that the loader is to return: tracked, with a symbol
    that is neither NULL, nor empty, nor the word null. *)
Definition wanted (r : Saham.row) : Prop :=
  Saham.is_tracked r = Some true /\
  exists s, Saham.yahoo_symbol r = Some s /\ s <> "" /\ s <> "null".

Definition wantedb (r : Saham.row) : bool :=
  is_True (Saham.is_tracked r) && symbol_filled (Saham.yahoo_symbol r).

(** A configuration value is absent when the variable is not set, present
    when it is set to something. *)
Definition absent (v : option string) : Prop := v = None.

Definition present (v : option string) : Prop :=
  exists s, v = Some s /\ s <> "".

(** The record that the specification asks of the price fetcher: date and
    close of the last bar, or no data. *)
Definition last_price (h : history) : option Price.t :=
  match h with
  | HistoryRaises _ => None
  | HistoryFrame [] => None
  | HistoryFrame (b :: rest) =>
      match Close (last rest b) with
      | Some c =>
          Some (Price.mk (date_isoformat (dt_date (name (last rest b)))) c)
      | None => None
      end
  end.

(** Bars of one frame share a time zone; their order in time is the order
    of (day number, time of day). *)
Definition bar_instant (b : bar) : Z :=
  toordinal (dt_date (name b)) * 86400000000 + micros_of_time (dt_time (name b)).

Definition chronological (rows : list bar) : Prop :=
  StronglySorted (fun a b => bar_instant a <= bar_instant b) rows.

(** [id] is the primary key of the price table. *)
Definition primary_key (rows : list Harga.row) : Prop :=
  NoDup (map Harga.id rows).

(** The price table holds a row with this instrument, date and price. *)
Definition holds_row (X : Z) (D : string) (P : float)
    (rows : list Harga.row) : Prop :=
  exists r, In r rows /\ Harga.saham_id r = X /\ Harga.close_date r = D /\
            Harga.close_price r = P.

(** The store serves every request. *)
Definition all_served (E : env) : Prop :=
  forall n, store_outcome E n = Served.

(** The run before its last step: everything up to the end of the loop
    over the instruments. *)
Definition price_phase (E : env) : M unit :=
  (let now_jkt := datetime_now E ID_TZ in
   let market_hours := is_market_hours now_jkt in
   logging_info (MsgRunOnce (datetime_isoformat now_jkt) market_hours) ;;
   logging_info (MsgStart (datetime_isoformat now_jkt)
                   (date_isoformat (dt_date now_jkt))) ;;
   stocks <- get_tracked_stocks E ;;
   logging_info (MsgWillFetch (List.length stocks)) ;;
   for_each stocks (process_stock E))%py.

(** The last step of the run, with its handler. *)
Definition status_phase (E : env) : M unit :=
  let now_jkt := datetime_now E ID_TZ in
  try_except
    (update_system_status E now_jkt (is_market_hours now_jkt))
    (fun e => logging_warning (MsgStatusFailed e)).

(** A date of the calendar, as [datetime.date] accepts it. *)
Definition valid_date (d : date) : Prop :=
  1 <= year d <= 9999 /\ 1 <= month d <= 12 /\ 1 <= day d <= 31.

(** What identifies a price row and what the upsert looks it up by. *)
Definition row_key (r : Harga.row) : Z * Z * string :=
  (Harga.id r, Harga.saham_id r, Harga.close_date r).

(** The request that the loop sends to the provider for an instrument. *)
Definition request_of (s : Saham.row) : string * string * string :=
  (match Saham.yahoo_symbol s with Some sym => sym | None => "" end,
   "5d", "1d").

(** The status table after the update of the status step has taken
    effect. *)
Definition stamped (B : bool) (ts : string) (rows : list Status.row)
    : list Status.row :=
  map (fun r =>
         if Status.id r =? 1
         then set_field (if B then last_auto_update_at
                         else last_out_of_hours_run) ts r
         else r) rows.

(** The row that the insert of the status step adds. *)
Definition first_stamp (B : bool) (ts : string) : Status.row :=
  set_field (if B then last_auto_update_at else last_out_of_hours_run) ts
    (Status.mkRow 1 None None).

(** The status table holds the row of id 1 at most once. *)
Definition singleton_at_most (rows : list Status.row) : Prop :=
  (List.length (filter (fun r => (Status.id r =? 1)%Z) rows) <= 1)%nat.

(** ** A concrete store and provider

    The end-to-end scenario of the specification: one tracked instrument,
    BBCA, whose last bar is the one of 2024-03-01. *)

Module Scenario.

Definition getenv (k : string) : option string :=
  if (k =? "SUPABASE_URL")%string then Some "https://project.supabase.co"
  else if (k =? "SUPABASE_SERVICE_ROLE_KEY")%string then Some "service-role"
  else None.

Definition bbca : Saham.row :=
  Saham.mkRow 1 (Some "BBCA") (Some "BBCA.JK") (Some true).

Definition bar_of (d : date) (close : float) : bar :=
  mkBar (mkDatetime d (mkTime 0 0 0 0) ID_TZ) (Some close).

(** The provider knows BBCA.JK only. *)
Definition provider (close : float) (symbol period interval : string)
    : history :=
  if (symbol =? "BBCA.JK")%string then
    HistoryFrame [bar_of (mkDate 2024 2 29) 9400; bar_of (mkDate 2024 3 1) close]
  else HistoryRaises (ProviderError symbol).

Definition always_served (n : nat) : outcome := Served.

Definition run_at (h m : Z) (close : float) : env :=
  mkEnv getenv (mkDate 2024 3 1) (mkTime h m 0 0) (provider close)
    always_served.

Definition first_fetch : Price.t := Price.mk "2024-03-01" 9500.

Definition second_fetch : Price.t := Price.mk "2024-03-01" 9550.

Definition empty_store : world := mkWorld [bbca] [] [] 0 [] [].

Definition one_price (close : float) : world :=
  mkWorld [bbca] [Harga.mkRow 1 1 "2024-03-01" close] [] 0 [] [].

(** Instruments that the loader must drop, next to BBCA. *)
Definition mixed_instruments : world :=
  mkWorld
    [bbca;
     Saham.mkRow 2 (Some "TLKM") (Some "null") (Some true);
     Saham.mkRow 3 (Some "ASII") (Some "") (Some true);
     Saham.mkRow 4 (Some "UNVR") None (Some true);
     Saham.mkRow 5 (Some "GOTO") (Some "GOTO.JK") (Some false)]
    [] [] 0 [] [].

(** A status row written by an out-of-hours run. *)
Definition stamped_off_hours : world :=
  mkWorld [bbca] []
    [Status.mkRow 1 None (Some "2024-02-29T20:00:00+07:00")] 0 [] [].

Definition friday_10 : datetime :=
  mkDatetime (mkDate 2024 3 1) (mkTime 10 0 0 0) ID_TZ.

(** No variable is set. *)
Definition no_config : env :=
  mkEnv (fun _ => None) (mkDate 2024 3 1) (mkTime 10 0 0 0) (provider 9500)
    always_served.

(** A batch of three; the provider fails for the second symbol. *)
Definition tlkm : Saham.row :=
  Saham.mkRow 2 (Some "TLKM") (Some "TLKM.JK") (Some true).

Definition asii : Saham.row :=
  Saham.mkRow 3 (Some "ASII") (Some "ASII.JK") (Some true).

Definition batch_provider (symbol period interval : string) : history :=
  if (symbol =? "BBCA.JK")%string then
    HistoryFrame [bar_of (mkDate 2024 3 1) 9500]
  else if (symbol =? "ASII.JK")%string then
    HistoryFrame [bar_of (mkDate 2024 3 1) 5200]
  else HistoryRaises (ProviderError symbol).

Definition batch_env : env :=
  mkEnv getenv (mkDate 2024 3 1) (mkTime 10 0 0 0) batch_provider
    always_served.

Definition batch_store : world := mkWorld [bbca; tlkm; asii] [] [] 0 [] [].

(** The same batch against a store that refuses the first request it gets,
    the check of BBCA, and serves the later ones. *)
Definition first_refused : env :=
  mkEnv getenv (mkDate 2024 3 1) (mkTime 10 0 0 0) batch_provider
    (fun n => if (n =? 0)%nat then Refused else Served).

(** The store goes down after the third request: the status step fails. *)
Definition status_down : env :=
  mkEnv getenv (mkDate 2024 3 1) (mkTime 10 0 0 0) (provider 9500)
    (fun n => if (n <? 3)%nat then Served else Refused).

(** Two rows for BBCA on 2024-03-01, left by an earlier fault. *)
Definition two_prices : world :=
  mkWorld [bbca]
    [Harga.mkRow 1 1 "2024-03-01" 9400; Harga.mkRow 2 1 "2024-03-01" 9450]
    [] 0 [] [].

End Scenario.

(** * Properties *)

(** ** Calendar and clock *)

Example weekday_2024_03_01 : weekday (mkDate 2024 3 1) = 4.
Proof. reflexivity. Qed.

Example weekday_2024_03_02 : weekday (mkDate 2024 3 2) = 5.
Proof. reflexivity. Qed.

Example weekday_0001_01_01 : weekday (mkDate 1 1 1) = 0.
Proof. reflexivity. Qed.

Example isoformat_2024_03_01 : date_isoformat (mkDate 2024 3 1) = "2024-03-01".
Proof. reflexivity. Qed.

Example isoformat_now :
  datetime_isoformat (mkDatetime (mkDate 2024 3 1) (mkTime 9 5 0 120) ID_TZ)
  = "2024-03-01T09:05:00.000120+07:00".
Proof. reflexivity. Qed.

Lemma weekday_range (d : date) : 0 <= weekday d < 7.
Proof. unfold weekday. apply Z.mod_pos_bound. lia. Qed.

(** On well-formed times the tuple order is the order of the instants. *)
Lemma time_le_micros (a b : time) :
  valid_time a -> valid_time b ->
  (time_le a b = true <-> micros_of_time a <= micros_of_time b).
Proof.
  destruct a as [ha ma sa ua], b as [hb mb sb ub].
  unfold valid_time, time_le, micros_of_time; simpl.
  intros (Hha & Hma & Hsa & Hua) (Hhb & Hmb & Hsb & Hub).
  repeat match goal with
  | |- context [?x <? ?y] => destruct (Z.ltb_spec x y)
  end;
  try (split; [intros _; nia | reflexivity]);
  try (split; [discriminate | intros; exfalso; nia]).
  rewrite Z.leb_le. replace ha with hb by lia. replace ma with mb by lia.
  replace sa with sb by lia. lia.
Qed.

(** C3.  On a Saturday or a Sunday [is_market_hours] is false whatever the
    time of day.  On the other days it is true exactly when the time of day
    lies between 09:00 and 15:30, both included: true at 09:00:00 and at
    15:30:00, false at 08:59:59 and at 15:30:01. *)
Theorem is_market_hours_window (now : datetime) :
  valid_time (dt_time now) ->
  (is_weekend (dt_date now) -> is_market_hours now = false) /\
  (~ is_weekend (dt_date now) ->
     (is_market_hours now = true <-> in_trading_window (dt_time now)) /\
     is_market_hours (mkDatetime (dt_date now) (mkTime 9 0 0 0) (utcoffset now))
       = true /\
     is_market_hours (mkDatetime (dt_date now) (mkTime 15 30 0 0) (utcoffset now))
       = true /\
     is_market_hours (mkDatetime (dt_date now) (mkTime 8 59 59 0) (utcoffset now))
       = false /\
     is_market_hours (mkDatetime (dt_date now) (mkTime 15 30 1 0) (utcoffset now))
       = false).
Proof.
  intros Hv. pose proof (weekday_range (dt_date now)) as Hr.
  unfold is_weekend, is_market_hours. split.
  - intros Hw. destruct (Z.leb_spec 5 (weekday (dt_date now))); [reflexivity | lia].
  - intros Hw. simpl.
    destruct (Z.leb_spec 5 (weekday (dt_date now))) as [Hge | Hlt];
      [exfalso; lia |].
    assert (V9 : valid_time (mkTime 9 0 0 0)) by (unfold valid_time; simpl; lia).
    assert (V15 : valid_time (mkTime 15 30 0 0))
      by (unfold valid_time; simpl; lia).
    split; [| repeat split; reflexivity].
    unfold in_trading_window. rewrite andb_true_iff.
    rewrite (time_le_micros _ _ V9 Hv), (time_le_micros _ _ Hv V15).
    reflexivity.
Qed.

Lemma is_market_hours_window_witness :
  is_market_hours (mkDatetime (mkDate 2024 3 1) (mkTime 15 30 0 0) ID_TZ) = true /\
  is_market_hours (mkDatetime (mkDate 2024 3 2) (mkTime 10 0 0 0) ID_TZ) = false.
Proof.
  split.
  - destruct (is_market_hours_window
                (mkDatetime (mkDate 2024 3 1) (mkTime 15 30 0 0) ID_TZ))
      as [_ Hweek].
    + unfold valid_time; simpl; lia.
    + destruct Hweek as (_ & _ & Hclose & _); [| exact Hclose].
      unfold is_weekend; vm_compute; intros [H | H]; discriminate H.
  - destruct (is_market_hours_window
                (mkDatetime (mkDate 2024 3 2) (mkTime 10 0 0 0) ID_TZ))
      as [Hsat _].
    + unfold valid_time; simpl; lia.
    + apply Hsat. left; reflexivity.
Defined.

(** ** Requests against the store *)

Section Store.

Variable E : env.

Lemma execute_cases {A} (q : request A) (w : world) :
  (store_outcome E (requests w) = Served /\
   execute E q w = (Ok (fst (q (count_request w))), snd (q (count_request w))))
  \/ (store_outcome E (requests w) = Refused /\
      execute E q w = (Raise (StoreError (requests w)), count_request w))
  \/ (store_outcome E (requests w) = Lost /\
      execute E q w =
        (Raise (StoreError (requests w)), snd (q (count_request w)))).
Proof.
  unfold execute. destruct (store_outcome E (requests w)).
  - left. split; [reflexivity |]. destruct (q (count_request w)); reflexivity.
  - right; left. split; reflexivity.
  - right; right. split; reflexivity.
Qed.

Lemma execute_served {A} (q : request A) (w : world) :
  store_outcome E (requests w) = Served ->
  execute E q w = (Ok (fst (q (count_request w))), snd (q (count_request w))).
Proof.
  intros H. destruct (execute_cases q w) as [[_ ->] | [[H' _] | [H' _]]];
    [reflexivity | congruence | congruence].
Qed.

End Store.

(** ** The price table under update and insert *)

Lemma for_pair_true (X : Z) (D : string) (r : Harga.row) :
  for_pair X D r = true <-> Harga.saham_id r = X /\ Harga.close_date r = D.
Proof.
  unfold for_pair. rewrite andb_true_iff, Z.eqb_eq, String.eqb_eq. reflexivity.
Qed.

Lemma for_pair_with_close_price (X : Z) (D : string) (p : float)
    (r : Harga.row) :
  for_pair X D (with_close_price p r) = for_pair X D r.
Proof. reflexivity. Qed.

(** Changing prices moves no row into or out of a pair. *)
Lemma rows_for_reprice (X : Z) (D : string) (p : float)
    (sel : Harga.row -> bool) (rows : list Harga.row) :
  rows_for X D (map (fun r => if sel r then with_close_price p r else r) rows)
  = map (fun r => if sel r then with_close_price p r else r) (rows_for X D rows).
Proof.
  unfold rows_for. induction rows as [| r rows IH]; simpl; [reflexivity |].
  assert (Hk : for_pair X D (if sel r then with_close_price p r else r)
               = for_pair X D r) by (destruct (sel r); reflexivity).
  rewrite Hk. destruct (for_pair X D r); simpl; rewrite IH; reflexivity.
Qed.

Lemma one_row_per_pair_reprice (p : float) (sel : Harga.row -> bool)
    (rows : list Harga.row) :
  one_row_per_pair rows ->
  one_row_per_pair
    (map (fun r => if sel r then with_close_price p r else r) rows).
Proof.
  intros H X D. rewrite rows_for_reprice, length_map. apply H.
Qed.

Lemma rows_for_app (X : Z) (D : string) (l1 l2 : list Harga.row) :
  rows_for X D (l1 ++ l2) = rows_for X D l1 ++ rows_for X D l2.
Proof. unfold rows_for. apply filter_app. Qed.

Lemma one_row_per_pair_insert (X : Z) (D : string) (r : Harga.row)
    (rows : list Harga.row) :
  Harga.saham_id r = X -> Harga.close_date r = D ->
  rows_for X D rows = [] ->
  one_row_per_pair rows ->
  one_row_per_pair (rows ++ [r]).
Proof.
  intros HX HD Hnone H X' D'. rewrite rows_for_app, length_app.
  unfold rows_for at 2; simpl.
  destruct (for_pair X' D' r) eqn:Hr; simpl.
  - apply for_pair_true in Hr. destruct Hr as [Hx Hd].
    replace X' with X by congruence. replace D' with D by congruence.
    rewrite Hnone. simpl. lia.
  - specialize (H X' D'). lia.
Qed.

(** ** save_price_to_supabase *)

Section Upsert.

Variable E : env.
Variable stock : Saham.row.
Variable data : Price.t.

Let X := Saham.id stock.
Let D := Price.date data.
Let P := Price.close data.

(** With both requests served, the result and the world are fixed by the
    rows that the table holds for the pair. *)
Lemma save_price_served (w : world) :
  served E (requests w) 2 ->
  save_price_to_supabase E stock data w =
    match rows_for X D (harga w) with
    | [] =>
        (Ok "insert",
         set_harga (harga w ++ [inserted X D P (harga w)])
           (count_request (count_request w)))
    | sel :: _ =>
        (Ok "update",
         set_harga (repriced (Harga.id sel) P (harga w)) (count_request (count_request w)))
    end.
Proof.
  intros Hs.
  assert (H0 : store_outcome E (requests w) = Served) by (apply Hs; lia).
  assert (H1 : store_outcome E (S (requests w)) = Served) by (apply Hs; lia).
  unfold save_price_to_supabase, bind.
  rewrite (execute_served E _ w H0). simpl.
  fold X D P. unfold rows_for.
  destruct (filter (for_pair X D) (harga w)) as [| sel more]; simpl.
  - rewrite execute_served by exact H1. reflexivity.
  - rewrite execute_served by exact H1. reflexivity.
Qed.

(** Whatever the store does with the requests, the price table ends in one
    of three shapes: as it was, repriced at the key of the first row of the
    pair, or extended by one row for a pair that had none. *)
Lemma save_price_table (w : world) :
  let rows' := harga (snd (save_price_to_supabase E stock data w)) in
  rows' = harga w
  \/ (exists sel more,
        rows_for X D (harga w) = sel :: more /\
        rows' = repriced (Harga.id sel) P (harga w))
  \/ (rows_for X D (harga w) = [] /\
      rows' = harga w ++ [inserted X D P (harga w)]).
Proof.
  unfold save_price_to_supabase, bind. fold X D P.
  destruct (execute_cases E (harga_check X D) w)
    as [[_ ->] | [[_ ->] | [_ ->]]]; simpl; try (left; reflexivity).
  unfold rows_for.
  destruct (filter (for_pair X D) (harga w)) as [| sel more] eqn:Hrows; simpl.
  - destruct (execute_cases E (harga_insert X D P)
                (count_request w)) as [[_ ->] | [[_ ->] | [_ ->]]]; simpl.
    + right; right. split; reflexivity.
    + left; reflexivity.
    + right; right. split; reflexivity.
  - destruct (execute_cases E (harga_update (Harga.id sel) P)
                (count_request w)) as [[_ ->] | [[_ ->] | [_ ->]]]; simpl.
    + right; left. exists sel, more. split; reflexivity.
    + left; reflexivity.
    + right; left. exists sel, more. split; reflexivity.
Qed.

(** The other tables are out of reach of the upsert. *)
Lemma save_price_frame (w : world) :
  let w' := snd (save_price_to_supabase E stock data w) in
  saham w' = saham w /\ status w' = status w /\
  yf_requests w' = yf_requests w /\ log w' = log w.
Proof.
  unfold save_price_to_supabase, bind. fold X D P.
  destruct (execute_cases E (harga_check X D) w)
    as [[_ ->] | [[_ ->] | [_ ->]]]; simpl; try (repeat split; reflexivity).
  destruct (filter (for_pair X D) (harga w)) as [| sel more]; simpl.
  - destruct (execute_cases E (harga_insert X D P)
                (count_request w)) as [[_ ->] | [[_ ->] | [_ ->]]]; simpl;
      repeat split; reflexivity.
  - destruct (execute_cases E (harga_update (Harga.id sel) P)
                (count_request w)) as [[_ ->] | [[_ ->] | [_ ->]]]; simpl;
      repeat split; reflexivity.
Qed.

Lemma save_price_invariant (w : world) :
  one_row_per_pair (harga w) ->
  one_row_per_pair (harga (snd (save_price_to_supabase E stock data w))).
Proof.
  intros Hinv.
  destruct (save_price_table w) as [-> | [(sel & more & _ & ->) | [Hnone ->]]].
  - exact Hinv.
  - apply one_row_per_pair_reprice. exact Hinv.
  - apply (one_row_per_pair_insert X D); [reflexivity | reflexivity | | ];
      assumption.
Qed.

End Upsert.

Lemma rows_for_repriced (X : Z) (D : string) (k : Z) (P : float)
    (rows : list Harga.row) :
  rows_for X D (repriced k P rows) = repriced k P (rows_for X D rows).
Proof. apply rows_for_reprice. Qed.

Lemma length_repriced (k : Z) (P : float) (rows : list Harga.row) :
  List.length (repriced k P rows) = List.length rows.
Proof. apply length_map. Qed.

(** C1.  With the store serving the two requests of the upsert: when the
    table has no row for (X, D), exactly one row (X, D, price) is added and
    the action is "insert"; when it has exactly one row for (X, D), that row
    takes the new price, the table keeps its number of rows, (X, D) still has
    exactly one row, and the action is "update". *)
Theorem save_price_upsert (E : env) (stock : Saham.row) (data : Price.t)
    (w : world) :
  served E (requests w) 2 ->
  let X := Saham.id stock in
  let D := Price.date data in
  let P := Price.close data in
  let out := save_price_to_supabase E stock data w in
  (rows_for X D (harga w) = [] ->
     fst out = Ok "insert" /\
     harga (snd out) = harga w ++ [Harga.mkRow (fresh_id (harga w)) X D P] /\
     rows_for X D (harga (snd out)) = [Harga.mkRow (fresh_id (harga w)) X D P])
  /\
  (forall r1, rows_for X D (harga w) = [r1] ->
     fst out = Ok "update" /\
     rows_for X D (harga (snd out)) = [with_close_price P r1] /\
     List.length (harga (snd out)) = List.length (harga w)).
Proof.
  intros Hs X D P out. subst out.
  rewrite (save_price_served E stock data w Hs). fold X D P. split.
  - intros Hnone. rewrite Hnone. simpl. repeat split.
    rewrite rows_for_app, Hnone. unfold rows_for, inserted, for_pair. simpl.
    rewrite Z.eqb_refl, String.eqb_refl. reflexivity.
  - intros r1 Hone. rewrite Hone. simpl. repeat split.
    + rewrite rows_for_repriced, Hone. unfold repriced. simpl.
      rewrite Z.eqb_refl. reflexivity.
    + apply length_repriced.
Qed.

Lemma save_price_upsert_witness :
  harga (snd (save_price_to_supabase (Scenario.run_at 10 0 9500) Scenario.bbca
                Scenario.first_fetch Scenario.empty_store))
    = [Harga.mkRow 1 1 "2024-03-01" 9500]
  /\
  rows_for 1 "2024-03-01"
    (harga (snd (save_price_to_supabase (Scenario.run_at 10 5 9550)
                   Scenario.bbca Scenario.second_fetch
                   (Scenario.one_price 9500))))
    = [Harga.mkRow 1 1 "2024-03-01" 9550].
Proof.
  split.
  - destruct (save_price_upsert (Scenario.run_at 10 0 9500) Scenario.bbca
                Scenario.first_fetch Scenario.empty_store) as [Hins _].
    + intros i _. reflexivity.
    + destruct Hins as (_ & Hrows & _); [reflexivity | exact Hrows].
  - destruct (save_price_upsert (Scenario.run_at 10 5 9550) Scenario.bbca
                Scenario.second_fetch (Scenario.one_price 9500)) as [_ Hupd].
    + intros i _. reflexivity.
    + destruct (Hupd (Harga.mkRow 1 1 "2024-03-01" 9500)) as (_ & Hrows & _);
        [reflexivity | exact Hrows].
Defined.

(** ** Rules for [preserves] and [returns_normally] *)

Section Rules.

Variable I : world -> Prop.

Lemma preserves_ret {A} (a : A) : preserves I (ret a).
Proof. intros w Hw. exact Hw. Qed.

Lemma preserves_raise {A} (e : exn) : preserves I (@raise A e).
Proof. intros w Hw. exact Hw. Qed.

Lemma preserves_bind {A B} (m : M A) (k : A -> M B) :
  preserves I m -> (forall a, preserves I (k a)) -> preserves I (bind m k).
Proof.
  intros Hm Hk w Hw. unfold bind. specialize (Hm w Hw).
  destruct (m w) as [[a | e] w']; simpl in *.
  - apply Hk. exact Hm.
  - exact Hm.
Qed.

Lemma preserves_try_except {A} (body : M A) (handler : exn -> M A) :
  preserves I body -> (forall e, preserves I (handler e)) ->
  preserves I (try_except body handler).
Proof.
  intros Hb Hh w Hw. unfold try_except. specialize (Hb w Hw).
  destruct (body w) as [[a | e] w']; simpl in *.
  - exact Hb.
  - apply Hh. exact Hb.
Qed.

Lemma preserves_for_each {A} (xs : list A) (body : A -> M unit) :
  (forall x, preserves I (body x)) -> preserves I (for_each xs body).
Proof.
  intros Hb. induction xs as [| x rest IH]; simpl.
  - apply preserves_ret.
  - apply preserves_bind; [apply Hb | intros _; exact IH].
Qed.

Lemma preserves_execute {A} (E : env) (q : request A) :
  (forall w, I w -> I (count_request w)) ->
  (forall w, I w -> I (snd (q w))) ->
  preserves I (execute E q).
Proof.
  intros Hc Hq w Hw.
  destruct (execute_cases E q w) as [[_ ->] | [[_ ->] | [_ ->]]]; simpl; auto.
Qed.

End Rules.

Lemma returns_normally_ret {A} (a : A) : returns_normally (ret a).
Proof. intros w. exists a. reflexivity. Qed.

Lemma returns_normally_bind {A B} (m : M A) (k : A -> M B) :
  returns_normally m -> (forall a, returns_normally (k a)) ->
  returns_normally (bind m k).
Proof.
  intros Hm Hk w. unfold bind. destruct (Hm w) as [a Ha].
  destruct (m w) as [[a' | e] w']; simpl in Ha; [apply Hk | discriminate].
Qed.

(** A handler that returns makes the whole [try] return. *)
Lemma returns_normally_try_except {A} (body : M A) (handler : exn -> M A) :
  (forall e, returns_normally (handler e)) ->
  returns_normally (try_except body handler).
Proof.
  intros Hh w. unfold try_except.
  destruct (body w) as [[a | e] w']; [exists a; reflexivity | apply Hh].
Qed.

Lemma returns_normally_for_each {A} (xs : list A) (body : A -> M unit) :
  (forall x, returns_normally (body x)) ->
  returns_normally (for_each xs body).
Proof.
  intros Hb. induction xs as [| x rest IH]; simpl.
  - apply returns_normally_ret.
  - apply returns_normally_bind; [apply Hb | intros _; exact IH].
Qed.

Lemma returns_normally_log (lv : level) (m : message) :
  returns_normally (fun w => (Ok tt, add_log (lv, m) w)).
Proof. intros w. exists tt. reflexivity. Qed.

(** ** What each step of the run leaves alone *)

Section Stable.

Variable E : env.

(** A property of the world that no log record, provider request, request
    count or write to the status table can break. *)
Variable I : world -> Prop.

Hypothesis I_log : forall r w, I w -> I (add_log r w).
Hypothesis I_yf : forall r w, I w -> I (add_yf_request r w).
Hypothesis I_count : forall w, I w -> I (count_request w).
Hypothesis I_status : forall rows w, I w -> I (set_status rows w).

Lemma logging_stable (lv : level) (m : message) :
  preserves I (fun w => (Ok tt, add_log (lv, m) w)).
Proof. intros w Hw. apply I_log. exact Hw. Qed.

Lemma fetch_price_stable (symbol : string) :
  preserves I (fetch_price E symbol).
Proof.
  unfold fetch_price. apply preserves_try_except.
  - apply preserves_bind.
    + intros w Hw. unfold ticker_history.
      destruct (yf_history E symbol "5d" "1d"); apply I_yf; exact Hw.
    + intros [| b rest].
      * apply preserves_bind; [apply logging_stable | intros; apply preserves_ret].
      * apply preserves_bind; [| intros; apply preserves_ret].
        unfold to_float. destruct (Close (last rest b));
          [apply preserves_ret | apply preserves_raise].
  - intros e. apply preserves_bind;
      [apply logging_stable | intros; apply preserves_ret].
Qed.

Lemma get_tracked_stocks_stable : preserves I (get_tracked_stocks E).
Proof.
  unfold get_tracked_stocks. apply preserves_bind.
  - apply preserves_execute; [exact I_count | intros w Hw; exact Hw].
  - intros data. apply preserves_bind;
      [apply logging_stable | intros; apply preserves_ret].
Qed.

Lemma update_system_status_stable (now : datetime) (mh : bool) :
  preserves I (update_system_status E now mh).
Proof.
  unfold update_system_status. apply preserves_bind.
  - apply preserves_execute; [exact I_count |].
    intros w Hw. apply I_status. exact Hw.
  - intros [| r rest]; [| apply preserves_ret].
    apply preserves_bind; [| intros; apply preserves_ret].
    apply preserves_execute; [exact I_count |].
    intros w Hw. apply I_status. exact Hw.
Qed.

(** One turn of the loop keeps what the upsert of its instrument keeps. *)
Lemma process_stock_stable (stock : Saham.row) :
  (forall data, preserves I (save_price_to_supabase E stock data)) ->
  preserves I (process_stock E stock).
Proof.
  intros Hsave. unfold process_stock.
  destruct (Saham.yahoo_symbol stock) as [[| c sym] |];
    try apply logging_stable.
  apply preserves_bind; [apply fetch_price_stable | intros [p |]];
    [| apply logging_stable].
  apply preserves_try_except.
  - apply preserves_bind; [apply Hsave | intros; apply logging_stable].
  - intros e. apply logging_stable.
Qed.

(** The run keeps what every upsert keeps. *)
Lemma run_once_stable :
  (forall stock data, preserves I (save_price_to_supabase E stock data)) ->
  preserves I (run_once E).
Proof.
  intros Hsave. unfold run_once.
  apply preserves_bind; [apply logging_stable | intros _].
  apply preserves_bind; [apply logging_stable | intros _].
  apply preserves_bind; [apply get_tracked_stocks_stable | intros stocks].
  apply preserves_bind; [apply logging_stable | intros _].
  apply preserves_bind.
  - apply preserves_for_each. intros stock. apply process_stock_stable.
    apply Hsave.
  - intros _. apply preserves_try_except.
    + apply update_system_status_stable.
    + intros e. apply logging_stable.
Qed.

End Stable.

(** C2.  A price table with at most one row per (instrument, date) still has
    at most one row per pair after the upsert of any instrument and any
    fetched price, whatever the store does with the requests; hence also
    after a whole run. *)
Theorem upsert_keeps_one_row_per_pair (E : env) (w : world) :
  one_row_per_pair (harga w) ->
  (forall stock data,
     one_row_per_pair (harga (snd (save_price_to_supabase E stock data w))))
  /\ one_row_per_pair (harga (snd (run_once E w))).
Proof.
  intros Hinv. split.
  - intros stock data. apply save_price_invariant. exact Hinv.
  - apply (run_once_stable E (fun w' => one_row_per_pair (harga w')));
      try (intros; assumption).
    intros stock data w' Hw'. apply save_price_invariant. exact Hw'.
Qed.

Lemma upsert_keeps_one_row_per_pair_witness :
  one_row_per_pair (harga (Scenario.one_price 9500)) /\
  one_row_per_pair
    (harga (snd (run_once (Scenario.run_at 10 5 9550) (Scenario.one_price 9500)))).
Proof.
  assert (H : one_row_per_pair (harga (Scenario.one_price 9500))).
  { intros X D. unfold rows_for. simpl.
    destruct (for_pair X D _); simpl; lia. }
  split; [exact H |].
  exact (proj2 (upsert_keeps_one_row_per_pair (Scenario.run_at 10 5 9550)
                  (Scenario.one_price 9500) H)).
Defined.

(** ** Duplicates that are already there *)

Lemma filter_first_split {A} (p : A -> bool) (l : list A) (x : A)
    (xs : list A) :
  filter p l = x :: xs ->
  exists l1 l2, l = l1 ++ x :: l2 /\ filter p l1 = [] /\ filter p l2 = xs.
Proof.
  induction l as [| a l IH]; simpl; [discriminate |].
  destruct (p a) eqn:Hpa.
  - intros Heq. injection Heq as -> <-. exists [], l. repeat split.
  - intros Heq. destruct (IH Heq) as (l1 & l2 & -> & H1 & H2).
    exists (a :: l1), l2. simpl. rewrite Hpa. repeat split; assumption.
Qed.

Lemma repriced_other_keys (k : Z) (P : float) (rows : list Harga.row) :
  ~ In k (map Harga.id rows) -> repriced k P rows = rows.
Proof.
  unfold repriced. induction rows as [| r rows IH]; simpl; [reflexivity |].
  intros Hn. destruct (Z.eqb_spec (Harga.id r) k) as [Heq | Hne].
  - exfalso. apply Hn. left. exact Heq.
  - f_equal. apply IH. intros Hin. apply Hn. right. exact Hin.
Qed.

(** Under a primary key the update reaches one row. *)
Lemma repriced_primary_key (P : float) (before after : list Harga.row)
    (sel : Harga.row) :
  NoDup (map Harga.id (before ++ sel :: after)) ->
  repriced (Harga.id sel) P (before ++ sel :: after)
  = before ++ with_close_price P sel :: after.
Proof.
  rewrite map_app. simpl. intros Hnd. apply NoDup_remove_2 in Hnd.
  rewrite in_app_iff in Hnd.
  unfold repriced. rewrite map_app. simpl. rewrite Z.eqb_refl.
  fold (repriced (Harga.id sel) P before) (repriced (Harga.id sel) P after).
  rewrite !repriced_other_keys by tauto. reflexivity.
Qed.

(** C10.  When the table already holds two or more rows for (X, D), the
    upsert deletes and adds nothing: the table keeps its rows and the pair
    keeps its number of rows.  The only write is the update at the key of the
    row that the limit-1 query selects; with [id] a primary key that is the
    price of this one row, and with both requests served the write takes
    place and the action is "update". *)
Theorem save_price_keeps_duplicates (E : env) (stock : Saham.row)
    (data : Price.t) (w : world) :
  let X := Saham.id stock in
  let D := Price.date data in
  let P := Price.close data in
  let out := save_price_to_supabase E stock data w in
  (2 <= List.length (rows_for X D (harga w)))%nat ->
  exists sel more,
    rows_for X D (harga w) = sel :: more /\
    fst (harga_check X D w) = [sel] /\
    (harga (snd out) = harga w \/
     harga (snd out) = repriced (Harga.id sel) P (harga w)) /\
    map Harga.id (harga (snd out)) = map Harga.id (harga w) /\
    List.length (rows_for X D (harga (snd out)))
      = List.length (rows_for X D (harga w)) /\
    (NoDup (map Harga.id (harga w)) ->
       exists before after,
         harga w = before ++ sel :: after /\
         rows_for X D before = [] /\
         repriced (Harga.id sel) P (harga w)
           = before ++ with_close_price P sel :: after) /\
    (served E (requests w) 2 ->
       fst out = Ok "update" /\
       harga (snd out) = repriced (Harga.id sel) P (harga w)).
Proof.
  intros X D P out Hmany.
  destruct (rows_for X D (harga w)) as [| sel more] eqn:Hrows;
    [simpl in Hmany; lia |].
  exists sel, more. split; [reflexivity |].
  split; [unfold harga_check, select; simpl; fold (rows_for X D (harga w));
          rewrite Hrows; reflexivity |].
  assert (Hshape : harga (snd out) = harga w \/
                   harga (snd out) = repriced (Harga.id sel) P (harga w)).
  { destruct (save_price_table E stock data w)
      as [H | [(sel' & more' & Hsel & H) | [Hnone _]]].
    - left. exact H.
    - right. fold X D in Hsel. rewrite Hrows in Hsel.
      injection Hsel as <- _. exact H.
    - fold X D in Hnone. rewrite Hrows in Hnone. discriminate. }
  split; [exact Hshape |].
  split; [| split; [| split]].
  - destruct Hshape as [-> | ->]; [reflexivity |].
    unfold repriced. rewrite map_map. apply map_ext.
    intros r. destruct (Harga.id r =? Harga.id sel); reflexivity.
  - destruct Hshape as [-> | ->]; [rewrite Hrows; reflexivity |].
    rewrite rows_for_repriced, length_repriced, Hrows. reflexivity.
  - intros Hkey.
    destruct (filter_first_split _ _ _ _ Hrows) as (before & after & Hw & Hb & _).
    exists before, after. split; [exact Hw |]. split; [exact Hb |].
    rewrite Hw in Hkey |- *. apply repriced_primary_key. exact Hkey.
  - intros Hs. subst out. rewrite (save_price_served E stock data w Hs).
    fold X D P. rewrite Hrows. split; reflexivity.
Qed.

Lemma save_price_keeps_duplicates_witness :
  (2 <= List.length (rows_for 1 "2024-03-01" (harga Scenario.two_prices)))%nat /\
  harga (snd (save_price_to_supabase (Scenario.run_at 10 5 9550) Scenario.bbca
                Scenario.second_fetch Scenario.two_prices))
    = [Harga.mkRow 1 1 "2024-03-01" 9550; Harga.mkRow 2 1 "2024-03-01" 9450].
Proof.
  assert (Hmany : (2 <= List.length
                          (rows_for 1 "2024-03-01" (harga Scenario.two_prices)))%nat)
    by (simpl; lia).
  split; [exact Hmany |].
  destruct (save_price_keeps_duplicates (Scenario.run_at 10 5 9550)
              Scenario.bbca Scenario.second_fetch Scenario.two_prices Hmany)
    as (sel & more & Hrows & _ & _ & _ & _ & _ & Hserved).
  injection Hrows as <- _.
  destruct Hserved as [_ Htable]; [intros i _; reflexivity | exact Htable].
Defined.

(** ** update_system_status *)

Lemma filter_nil_existsb {A} (p : A -> bool) (l : list A) :
  filter p l = [] <-> existsb p l = false.
Proof.
  induction l as [| a l IH]; simpl; [tauto |].
  destruct (p a); simpl; [split; discriminate | exact IH].
Qed.

(** An update whose filters match no row leaves the table as it is. *)
Lemma update_no_match {A} (p : A -> bool) (change : A -> A) (l : list A) :
  existsb p l = false -> map (fun r => if p r then change r else r) l = l.
Proof.
  induction l as [| a l IH]; simpl; [reflexivity |].
  intros H. apply orb_false_elim in H. destruct H as [Ha Hl].
  rewrite Ha, (IH Hl). reflexivity.
Qed.

(** With its requests served, the status step ends normally and the status
    table is fixed by whether the singleton row is there. *)
Lemma update_system_status_served (E : env) (now : datetime) (B : bool)
    (w : world) :
  served E (requests w) 2 ->
  let field := if B then last_auto_update_at else last_out_of_hours_run in
  let ts := datetime_isoformat now in
  fst (update_system_status E now B w) = Ok tt /\
  status (snd (update_system_status E now B w)) =
    if has_singleton (status w) then
      map (fun r => if Status.id r =? 1 then set_field field ts r else r)
        (status w)
    else status w ++ [set_field field ts (Status.mkRow 1 None None)].
Proof.
  intros Hs field ts.
  assert (H0 : store_outcome E (requests w) = Served) by (apply Hs; lia).
  assert (H1 : store_outcome E (S (requests w)) = Served) by (apply Hs; lia).
  unfold update_system_status, bind. fold field ts.
  rewrite (execute_served E _ w H0). simpl. unfold has_singleton.
  destruct (filter (fun r => Status.id r =? 1) (status w)) as [| r rest] eqn:Hf;
    simpl.
  - rewrite execute_served by exact H1. simpl.
    apply filter_nil_existsb in Hf. rewrite Hf.
    rewrite (update_no_match _ _ _ Hf). split; reflexivity.
  - destruct (existsb (fun r0 => Status.id r0 =? 1) (status w)) eqn:He.
    + split; reflexivity.
    + apply filter_nil_existsb in He. rewrite He in Hf. discriminate.
Qed.

(** C5.  With the store serving the requests of the status step, a run with
    timestamp T and flag B ends normally and: when the table holds the row
    of id 1, no row is added, the selected column of that row becomes T, its
    other column keeps its value and every other row is untouched; when it
    does not, one row is added, with id 1, T in the selected column and
    NULL in the other. *)
Theorem update_system_status_field (E : env) (now : datetime) (B : bool)
    (w : world) :
  served E (requests w) 2 ->
  let T := datetime_isoformat now in
  let out := update_system_status E now B w in
  fst out = Ok tt /\
  (has_singleton (status w) = true ->
     List.length (status (snd out)) = List.length (status w) /\
     forall i r, nth_error (status w) i = Some r ->
       exists r', nth_error (status (snd out)) i = Some r' /\
         Status.id r' = Status.id r /\
         other_field B r' = other_field B r /\
         (Status.id r = 1 -> selected_field B r' = Some T) /\
         (Status.id r <> 1 -> r' = r)) /\
  (has_singleton (status w) = false ->
     exists r1, status (snd out) = status w ++ [r1] /\
       Status.id r1 = 1 /\ selected_field B r1 = Some T /\
       other_field B r1 = None).
Proof.
  intros Hs T out. subst out.
  destruct (update_system_status_served E now B w Hs) as [Hres Hst].
  split; [exact Hres |]. rewrite Hst. fold T. split.
  - intros Hhas. rewrite Hhas. split; [apply length_map |].
    intros i r Hi.
    eexists. split; [apply map_nth_error; exact Hi |]. cbv beta.
    destruct (Z.eqb_spec (Status.id r) 1) as [Hid | Hid].
    + destruct B; simpl; repeat split; try reflexivity; intros; contradiction.
    + repeat split; [intros; contradiction].
  - intros Hhas. rewrite Hhas. eexists. split; [reflexivity |].
    destruct B; simpl; repeat split.
Qed.

Lemma update_system_status_field_witness :
  status (snd (update_system_status (Scenario.run_at 10 0 9500)
                 Scenario.friday_10 true Scenario.empty_store))
    = [Status.mkRow 1 (Some "2024-03-01T10:00:00+07:00") None]
  /\
  nth_error
    (status (snd (update_system_status (Scenario.run_at 10 0 9500)
                    Scenario.friday_10 true Scenario.stamped_off_hours))) 0
    = Some (Status.mkRow 1 (Some "2024-03-01T10:00:00+07:00")
              (Some "2024-02-29T20:00:00+07:00")).
Proof.
  split.
  - destruct (update_system_status_field (Scenario.run_at 10 0 9500)
                Scenario.friday_10 true Scenario.empty_store)
      as (_ & _ & Hnew); [intros i _; reflexivity |].
    destruct (Hnew eq_refl) as (r1 & Hrows & Hid & Hsel & Hoth).
    rewrite Hrows. destruct r1 as [i a o]. simpl in Hid, Hsel, Hoth.
    rewrite Hid, Hsel, Hoth. reflexivity.
  - destruct (update_system_status_field (Scenario.run_at 10 0 9500)
                Scenario.friday_10 true Scenario.stamped_off_hours)
      as (_ & Hold & _); [intros i _; reflexivity |].
    destruct (Hold eq_refl) as [_ Hrow].
    destruct (Hrow 0%nat _ eq_refl) as (r' & Hnth & Hid & Hoth & Hsel & _).
    rewrite Hnth. destruct r' as [i a o]. simpl in Hid, Hoth, Hsel.
    rewrite Hid, Hoth, (Hsel eq_refl). reflexivity.
Defined.

(** ** get_tracked_stocks *)

Lemma symbol_filled_true (v : option string) :
  symbol_filled v = true <-> exists s, v = Some s /\ s <> "" /\ s <> "null".
Proof.
  destruct v as [s |]; simpl.
  - rewrite andb_true_iff, !negb_true_iff, !String.eqb_neq. split.
    + intros [H1 H2]. exists s. repeat split; assumption.
    + intros (s' & Heq & H1 & H2). injection Heq as <-. split; assumption.
  - split; [discriminate | intros (s & Heq & _); discriminate].
Qed.

Lemma is_True_true (v : option bool) : is_True v = true <-> v = Some true.
Proof.
  destruct v as [[|] |]; simpl; split; try reflexivity; discriminate.
Qed.

Lemma wantedb_true (r : Saham.row) : wantedb r = true <-> wanted r.
Proof.
  unfold wantedb, wanted.
  rewrite andb_true_iff, is_True_true, symbol_filled_true. reflexivity.
Qed.

Lemma filter_filter {A} (p q : A -> bool) (l : list A) :
  filter q (filter p l) = filter (fun a => p a && q a) l.
Proof.
  induction l as [| a l IH]; simpl; [reflexivity |].
  destruct (p a); simpl; [destruct (q a); rewrite IH; reflexivity | exact IH].
Qed.

(** C6, as amended.  With its query served, the loader returns exactly the
    rows of [saham], in table order, that are tracked and whose symbol is
    neither NULL, nor empty, nor the word null.  The query filters on
    [is_tracked] alone; the condition on the symbol is applied once, to the
    rows that the query returned. *)
Theorem get_tracked_stocks_rows (E : env) (w : world) :
  store_outcome E (requests w) = Served ->
  fst (get_tracked_stocks E w) = Ok (filter wantedb (saham w)) /\
  (forall r, In r (filter wantedb (saham w)) <-> In r (saham w) /\ wanted r) /\
  fst (tracked_query w)
    = filter (fun r => is_True (Saham.is_tracked r)) (saham w) /\
  fst (get_tracked_stocks E w)
    = Ok (filter (fun r => symbol_filled (Saham.yahoo_symbol r))
            (fst (tracked_query w))).
Proof.
  intros Hs.
  assert (Hres : fst (get_tracked_stocks E w)
                 = Ok (filter (fun r => symbol_filled (Saham.yahoo_symbol r))
                         (fst (tracked_query w)))).
  { unfold get_tracked_stocks, bind. rewrite (execute_served E _ w Hs).
    reflexivity. }
  split; [| split; [| split]].
  - rewrite Hres. unfold tracked_query, select. simpl.
    rewrite filter_filter. reflexivity.
  - intros r. rewrite filter_In, wantedb_true. reflexivity.
  - reflexivity.
  - exact Hres.
Qed.

Lemma get_tracked_stocks_rows_witness :
  fst (get_tracked_stocks (Scenario.run_at 10 0 9500) Scenario.mixed_instruments)
  = Ok [Scenario.bbca].
Proof.
  exact (proj1 (get_tracked_stocks_rows (Scenario.run_at 10 0 9500)
                  Scenario.mixed_instruments eq_refl)).
Defined.

(** C6 as stated fails on its last part: the query does not filter on the
    symbol.  Its answer for a table with a tracked row whose symbol is the
    word null contains that row. *)
Lemma tracked_query_returns_unfilled_symbols :
  ~ (forall w r, In r (fst (tracked_query w)) ->
       symbol_filled (Saham.yahoo_symbol r) = true).
Proof.
  intros H.
  specialize (H Scenario.mixed_instruments
                (Saham.mkRow 2 (Some "TLKM") (Some "null") (Some true))).
  simpl in H. discriminate H. right. left. reflexivity.
Qed.

(** ** Start-up *)

Lemma module_init_guard (E : env) (w : world) :
  module_init E w =
    if truthy (SUPABASE_URL E) && truthy (SUPABASE_KEY E) then
      (Ok (create_client (SUPABASE_URL E) (SUPABASE_KEY E)), w)
    else
      (Raise (RuntimeError
         "SUPABASE_URL / SUPABASE_SERVICE_ROLE_KEY belum di-set di .env"), w).
Proof.
  unfold module_init.
  destruct (truthy (SUPABASE_URL E)), (truthy (SUPABASE_KEY E)); reflexivity.
Qed.

Lemma truthy_present (v : option string) : truthy v = true <-> present v.
Proof.
  unfold present. destruct v as [s |]; simpl.
  - rewrite negb_true_iff, String.eqb_neq. split.
    + intros H. exists s. split; [reflexivity | exact H].
    + intros (s' & Heq & H). injection Heq as <-. exact H.
  - split; [discriminate | intros (s & Heq & _); discriminate].
Qed.

(** A variable that is set to the empty string counts as not set. *)
Lemma empty_value_aborts (E : env) (w : world) :
  SUPABASE_URL E = Some "" \/ SUPABASE_KEY E = Some "" ->
  fst (main E w) =
    Raise (RuntimeError
      "SUPABASE_URL / SUPABASE_SERVICE_ROLE_KEY belum di-set di .env").
Proof.
  intros H. unfold main, bind. rewrite module_init_guard.
  destruct H as [-> | ->]; simpl; [reflexivity |].
  rewrite andb_false_r. reflexivity.
Qed.

(** C9.  When the endpoint or the credential is absent, the script ends with
    a RuntimeError in the world it started in: no store request, no provider
    request, no log record, no instrument processed.  The credential is
    absent when neither of its two variables is set.  When both values are
    present the client is created and the script is the run. *)
Theorem startup_fails_fast (E : env) (w : world) :
  (absent (SUPABASE_URL E) \/ absent (SUPABASE_KEY E) ->
     exists msg, main E w = (Raise (RuntimeError msg), w)) /\
  (os_getenv E "SUPABASE_SERVICE_ROLE_KEY" = None ->
   os_getenv E "SUPABASE_ANON_KEY" = None ->
     absent (SUPABASE_KEY E)) /\
  (present (SUPABASE_URL E) -> present (SUPABASE_KEY E) ->
     module_init E w
       = (Ok (create_client (SUPABASE_URL E) (SUPABASE_KEY E)), w) /\
     main E w = run_once E w).
Proof.
  split; [| split].
  - intros H. eexists. unfold main, bind. rewrite module_init_guard.
    unfold absent in H. destruct H as [-> | ->]; simpl.
    + reflexivity.
    + rewrite andb_false_r. reflexivity.
  - intros H1 H2. unfold absent, SUPABASE_KEY, py_or. rewrite H1, H2.
    reflexivity.
  - intros Hu Hk. apply truthy_present in Hu. apply truthy_present in Hk.
    unfold main, bind. rewrite module_init_guard, Hu, Hk. simpl.
    split; reflexivity.
Qed.

Lemma startup_fails_fast_witness :
  (exists msg,
     main Scenario.no_config Scenario.empty_store
     = (Raise (RuntimeError msg), Scenario.empty_store)) /\
  main (Scenario.run_at 10 0 9500) Scenario.empty_store
  = run_once (Scenario.run_at 10 0 9500) Scenario.empty_store.
Proof.
  split.
  - apply (proj1 (startup_fails_fast Scenario.no_config Scenario.empty_store)).
    left. reflexivity.
  - apply (proj2 (proj2 (startup_fails_fast (Scenario.run_at 10 0 9500)
                           Scenario.empty_store))).
    + eexists. split; [reflexivity | discriminate].
    + eexists. split; [reflexivity | discriminate].
Defined.

(** ** fetch_price *)

(** The value and the world of [fetch_price], case by case. *)
Lemma fetch_price_eq (E : env) (symbol : string) (w : world) :
  fetch_price E symbol w =
    (Ok (last_price (yf_history E symbol "5d" "1d")),
     let w1 := add_yf_request (symbol, "5d", "1d") w in
     match yf_history E symbol "5d" "1d" with
     | HistoryRaises e => add_log (WARNING, MsgYfFailed symbol e) w1
     | HistoryFrame [] => add_log (WARNING, MsgYfEmpty symbol) w1
     | HistoryFrame (b :: rest) =>
         match Close (last rest b) with
         | Some _ => w1
         | None => add_log (WARNING, MsgYfFailed symbol ValueError) w1
         end
     end).
Proof.
  unfold fetch_price, try_except, bind, ticker_history, last_price.
  destruct (yf_history E symbol "5d" "1d") as [e | [| b rest]]; simpl;
    try reflexivity.
  destruct (Close (last rest b)); reflexivity.
Qed.

Lemma last_cons {A} (rest : list A) (a b : A) :
  last (a :: rest) b = last rest a.
Proof.
  revert a b. induction rest as [| x rest IH]; intros a b; [reflexivity |].
  change (last (a :: x :: rest) b) with (last (x :: rest) b).
  rewrite (IH x b), (IH x a). reflexivity.
Qed.

Lemma last_is_final {A} (rest : list A) (b : A) :
  exists front, b :: rest = front ++ [last rest b].
Proof.
  revert b. induction rest as [| a rest IH]; intros b.
  - exists []. reflexivity.
  - destruct (IH a) as [front Hf]. exists (b :: front).
    rewrite last_cons. simpl. rewrite <- Hf. reflexivity.
Qed.

(** In a frame in time order no bar is later than the final one. *)
Lemma final_bar_is_latest (front : list bar) (b : bar) :
  chronological (front ++ [b]) ->
  forall b', In b' (front ++ [b]) -> bar_instant b' <= bar_instant b.
Proof.
  unfold chronological. induction front as [| a front IH]; simpl.
  - intros _ b' [<- | []]. lia.
  - intros Hs b' Hin. apply StronglySorted_inv in Hs. destruct Hs as [Hs Ha].
    destruct Hin as [<- | Hin].
    + rewrite Forall_forall in Ha. apply Ha. apply in_or_app. right.
      left. reflexivity.
    + apply IH; assumption.
Qed.

(** C4.  For every symbol [fetch_price] sends one request, for period 5d
    and interval 1d, and returns without raising: no data when the provider
    raises, when the frame is empty or when the close of the final bar is
    not a number, and otherwise the ISO date and the close of the final bar
    of the frame, which is the latest bar of a frame in time order. *)
Theorem fetch_price_outcome (E : env) (symbol : string) (w : world) :
  let out := fetch_price E symbol w in
  let answer := yf_history E symbol "5d" "1d" in
  yf_requests (snd out) = yf_requests w ++ [(symbol, "5d", "1d")] /\
  fst out = Ok (last_price answer) /\
  (forall e, answer = HistoryRaises e -> fst out = Ok None) /\
  (answer = HistoryFrame [] -> fst out = Ok None) /\
  (forall rows, answer = HistoryFrame rows -> rows <> [] ->
     exists front b,
       rows = front ++ [b] /\
       (chronological rows ->
          forall b', In b' rows -> bar_instant b' <= bar_instant b) /\
       (forall c, Close b = Some c ->
          fst out = Ok (Some (Price.mk (date_isoformat (dt_date (name b))) c))) /\
       (Close b = None -> fst out = Ok None)).
Proof.
  intros out answer. subst out. rewrite fetch_price_eq. simpl. fold answer.
  split; [| split; [reflexivity | split; [| split]]].
  - destruct answer as [e | [| b rest]]; try reflexivity.
    destruct (Close (last rest b)); reflexivity.
  - intros e ->. reflexivity.
  - intros ->. reflexivity.
  - intros rows -> Hne. destruct rows as [| b0 rest]; [contradiction |].
    destruct (last_is_final rest b0) as [front Hf].
    exists front, (last rest b0). split; [exact Hf |]. split; [| split].
    + rewrite Hf. apply final_bar_is_latest.
    + intros c Hc. simpl. rewrite Hc. reflexivity.
    + intros Hc. simpl. rewrite Hc. reflexivity.
Qed.

Lemma fetch_price_outcome_witness :
  fst (fetch_price (Scenario.run_at 10 0 9500) "BBCA.JK" Scenario.empty_store)
    = Ok (Some Scenario.first_fetch) /\
  fst (fetch_price (Scenario.run_at 10 0 9500) "XXXX.JK" Scenario.empty_store)
    = Ok None.
Proof.
  split.
  - exact (proj1 (proj2 (fetch_price_outcome (Scenario.run_at 10 0 9500)
                           "BBCA.JK" Scenario.empty_store))).
  - exact (proj1 (proj2 (proj2 (fetch_price_outcome (Scenario.run_at 10 0 9500)
                                  "XXXX.JK" Scenario.empty_store)))
             (ProviderError "XXXX.JK") eq_refl).
Defined.

(** ** The loop over the instruments *)

Section Loop.

Variable E : env.

(** One turn of the loop always falls through to the next; what it leaves
    depends on the symbol, the provider's answer and the upsert. *)
Lemma process_stock_cases (s : Saham.row) (w : world) :
  process_stock E s w =
    (Ok tt,
     match Saham.yahoo_symbol s with
     | None | Some EmptyString => add_log (WARNING, MsgSkip (Saham.kode s)) w
     | Some sym =>
         let wf := snd (fetch_price E sym w) in
         match last_price (yf_history E sym "5d" "1d") with
         | None => add_log (WARNING, MsgNoData (Some sym) (Saham.kode s)) wf
         | Some p =>
             match save_price_to_supabase E s p wf with
             | (Ok action, w2) =>
                 add_log (INFO, MsgSaved (Saham.kode s) (Some sym)
                                  (Price.date p) (Price.close p) action) w2
             | (Raise e, w2) =>
                 add_log (WARNING, MsgSaveFailed (Saham.kode s) (Some sym) e) w2
             end
         end
     end).
Proof.
  unfold process_stock.
  destruct (Saham.yahoo_symbol s) as [[| c sym] |]; try reflexivity.
  unfold bind. rewrite fetch_price_eq. cbv zeta. cbn [fst snd].
  destruct (last_price (yf_history E (String c sym) "5d" "1d")) as [p |];
    [| reflexivity].
  unfold try_except, bind.
  destruct (save_price_to_supabase E s p _) as [[action | e] w2]; reflexivity.
Qed.

Lemma process_stock_returns (s : Saham.row) :
  returns_normally (process_stock E s).
Proof. intros w. exists tt. rewrite process_stock_cases. reflexivity. Qed.

Lemma for_each_cons (s : Saham.row) (rest : list Saham.row) (w : world) :
  for_each (s :: rest) (process_stock E) w
  = for_each rest (process_stock E) (snd (process_stock E s w)).
Proof. simpl. unfold bind. rewrite process_stock_cases. reflexivity. Qed.

Lemma loop_returns (stocks : list Saham.row) (w : world) :
  fst (for_each stocks (process_stock E) w) = Ok tt.
Proof.
  destruct (returns_normally_for_each stocks (process_stock E)
              process_stock_returns w) as [[] H].
  exact H.
Qed.

(** Neither the log nor the list of provider requests ever loses an
    entry. *)
Lemma save_price_keeps_records (stock : Saham.row) (data : Price.t)
    (w : world) :
  log (snd (save_price_to_supabase E stock data w)) = log w /\
  yf_requests (snd (save_price_to_supabase E stock data w)) = yf_requests w.
Proof.
  destruct (save_price_frame E stock data w) as (_ & _ & Hyf & Hlog).
  split; assumption.
Qed.

Lemma process_stock_keeps_log (a : level * message) (s : Saham.row) :
  preserves (fun w => In a (log w)) (process_stock E s).
Proof.
  apply process_stock_stable; try (intros; assumption).
  - intros r w Hw. simpl. apply in_or_app. left. exact Hw.
  - intros data w Hw.
    rewrite (proj1 (save_price_keeps_records s data w)). exact Hw.
Qed.

Lemma process_stock_keeps_yf (a : string * string * string) (s : Saham.row) :
  preserves (fun w => In a (yf_requests w)) (process_stock E s).
Proof.
  apply process_stock_stable; try (intros; assumption).
  - intros r w Hw. simpl. apply in_or_app. left. exact Hw.
  - intros data w Hw.
    rewrite (proj2 (save_price_keeps_records s data w)). exact Hw.
Qed.

(** Every instrument of the list gets its turn: the records of its turn are
    in the log and in the provider's requests when the loop ends. *)
Lemma loop_visits (stocks : list Saham.row) :
  forall (w : world) (s : Saham.row), In s stocks ->
  exists w0,
    incl (log (snd (process_stock E s w0)))
         (log (snd (for_each stocks (process_stock E) w))) /\
    incl (yf_requests (snd (process_stock E s w0)))
         (yf_requests (snd (for_each stocks (process_stock E) w))).
Proof.
  induction stocks as [| s0 rest IH]; intros w s Hin; [contradiction |].
  rewrite for_each_cons. destruct Hin as [-> | Hin].
  - exists w. split; intros a Ha.
    + apply (preserves_for_each (fun w' => In a (log w')) rest _
               (process_stock_keeps_log a)). exact Ha.
    + apply (preserves_for_each (fun w' => In a (yf_requests w')) rest _
               (process_stock_keeps_yf a)). exact Ha.
  - apply IH. exact Hin.
Qed.

(** The records of one turn. *)
Lemma process_stock_records (s : Saham.row) (sym : string) (w : world) :
  Saham.yahoo_symbol s = Some sym -> sym <> "" ->
  let w1 := snd (process_stock E s w) in
  In (sym, "5d", "1d") (yf_requests w1) /\
  (last_price (yf_history E sym "5d" "1d") = None ->
     In (WARNING, MsgNoData (Some sym) (Saham.kode s)) (log w1)) /\
  (forall p, last_price (yf_history E sym "5d" "1d") = Some p ->
     (exists action,
        In (INFO, MsgSaved (Saham.kode s) (Some sym) (Price.date p)
                    (Price.close p) action) (log w1)) \/
     (exists e,
        In (WARNING, MsgSaveFailed (Saham.kode s) (Some sym) e) (log w1))).
Proof.
  intros Hsym Hne w1. subst w1. rewrite process_stock_cases, Hsym.
  destruct sym as [| c sym]; [contradiction |]. cbv zeta. cbn [snd].
  assert (Hreq : In (String c sym, "5d", "1d")
                   (yf_requests (snd (fetch_price E (String c sym) w)))).
  { rewrite fetch_price_eq. cbn [snd]. cbv zeta.
    destruct (yf_history E (String c sym) "5d" "1d") as [e | [| b rest]];
      try destruct (Close (last rest b)); simpl; apply in_or_app; right;
      left; reflexivity. }
  destruct (last_price (yf_history E (String c sym) "5d" "1d")) as [p |].
  - destruct (save_price_to_supabase E s p
                (snd (fetch_price E (String c sym) w))) as [[action | e] w2]
      eqn:Hsave.
    + pose proof (save_price_keeps_records s p
                    (snd (fetch_price E (String c sym) w))) as [_ Hyf].
      rewrite Hsave in Hyf. simpl in Hyf. split; [| split].
      * simpl. rewrite Hyf. exact Hreq.
      * discriminate.
      * intros p' Hp. injection Hp as <-. left. exists action. simpl.
        apply in_or_app. right. left. reflexivity.
    + pose proof (save_price_keeps_records s p
                    (snd (fetch_price E (String c sym) w))) as [_ Hyf].
      rewrite Hsave in Hyf. simpl in Hyf. split; [| split].
      * simpl. rewrite Hyf. exact Hreq.
      * discriminate.
      * intros p' Hp. right. exists e. simpl.
        apply in_or_app. right. left. reflexivity.
  - split; [| split].
    + simpl. exact Hreq.
    + intros _. simpl. apply in_or_app. right. left. reflexivity.
    + discriminate.
Qed.

(** The loop over a list cut in two: the second part starts from the world
    that the first part left. *)
Lemma loop_split (before rest : list Saham.row) (w : world) :
  for_each (before ++ rest) (process_stock E) w
  = for_each rest (process_stock E)
      (snd (for_each before (process_stock E) w)).
Proof.
  revert w. induction before as [| s0 before IH]; intros w; [reflexivity |].
  rewrite <- app_comm_cons, !for_each_cons. apply IH.
Qed.

Lemma loop_keeps_log (a : level * message) (stocks : list Saham.row) :
  preserves (fun w => In a (log w)) (for_each stocks (process_stock E)).
Proof. apply preserves_for_each. intros s. apply process_stock_keeps_log. Qed.

(** The fetch sends nothing to the store. *)
Lemma fetch_price_keeps_store (sym : string) (w : world) :
  harga (snd (fetch_price E sym w)) = harga w /\
  requests (snd (fetch_price E sym w)) = requests w.
Proof.
  rewrite fetch_price_eq. cbn [snd]. cbv zeta.
  destruct (yf_history E sym "5d" "1d") as [e | [| b rest]];
    try destruct (Close (last rest b)); split; reflexivity.
Qed.

(** The upsert raises as soon as one of its two requests is not served; the
    exception names the request. *)
Lemma save_price_raises (stock : Saham.row) (data : Price.t) (w : world) :
  (store_outcome E (requests w) <> Served ->
     fst (save_price_to_supabase E stock data w)
     = Raise (StoreError (requests w))) /\
  (store_outcome E (requests w) = Served ->
   store_outcome E (S (requests w)) <> Served ->
     fst (save_price_to_supabase E stock data w)
     = Raise (StoreError (S (requests w)))).
Proof.
  unfold save_price_to_supabase, bind.
  destruct (execute_cases E (harga_check (Saham.id stock) (Price.date data)) w)
    as [[H0 ->] | [[H0 ->] | [H0 ->]]]; simpl;
    (split; [intros H; try reflexivity; congruence |]);
    intros H0' H1; try congruence.
  destruct (filter (for_pair (Saham.id stock) (Price.date data)) (harga w))
    as [| sel more]; simpl.
  - destruct (execute_cases E
                (harga_insert (Saham.id stock) (Price.date data)
                   (Price.close data)) (count_request w))
      as [[H ->] | [[H ->] | [H ->]]]; simpl in *;
      [congruence | reflexivity | reflexivity].
  - destruct (execute_cases E
                (harga_update (Harga.id sel) (Price.close data))
                (count_request w))
      as [[H ->] | [[H ->] | [H ->]]]; simpl in *;
      [congruence | reflexivity | reflexivity].
Qed.

(** What one turn with a filled symbol leaves: a failed fetch leaves its
    warning and sends nothing to the store; a save that raises leaves the
    warning with its exception; a save that returns leaves its record. *)
Lemma process_stock_outcome (s : Saham.row) (sym : string) (w : world) :
  Saham.yahoo_symbol s = Some sym -> sym <> "" ->
  let w1 := snd (process_stock E s w) in
  let wf := snd (fetch_price E sym w) in
  (last_price (yf_history E sym "5d" "1d") = None ->
     In (WARNING, MsgNoData (Some sym) (Saham.kode s)) (log w1) /\
     harga w1 = harga w /\ requests w1 = requests w) /\
  (forall p, last_price (yf_history E sym "5d" "1d") = Some p ->
     (forall e, fst (save_price_to_supabase E s p wf) = Raise e ->
        In (WARNING, MsgSaveFailed (Saham.kode s) (Some sym) e) (log w1)) /\
     (forall action, fst (save_price_to_supabase E s p wf) = Ok action ->
        In (INFO, MsgSaved (Saham.kode s) (Some sym) (Price.date p)
                    (Price.close p) action) (log w1))).
Proof.
  intros Hsym Hne w1 wf. subst w1 wf. rewrite process_stock_cases, Hsym.
  destruct sym as [| c sym]; [contradiction |]. cbv zeta. cbn [snd].
  destruct (fetch_price_keeps_store (String c sym) w) as [Hharga Hreq].
  destruct (last_price (yf_history E (String c sym) "5d" "1d")) as [p |].
  - split; [discriminate |]. intros p' Hp. injection Hp as <-.
    destruct (save_price_to_supabase E s p
                (snd (fetch_price E (String c sym) w))) as [[action | e] w2];
      cbn [fst]; split; intros x Hx; try discriminate Hx;
      injection Hx as <-; simpl; apply in_or_app; right; left; reflexivity.
  - split; [| discriminate]. intros _. split; [| split].
    + simpl. apply in_or_app. right. left. reflexivity.
    + simpl. exact Hharga.
    + simpl. exact Hreq.
Qed.

End Loop.

(** ** Rows written by one instrument survive the others *)

Lemma fresh_id_above (rows : list Harga.row) (r : Harga.row) :
  In r rows -> Harga.id r < fresh_id rows.
Proof.
  unfold fresh_id. induction rows as [| a rows IH]; [contradiction |].
  cbn [map fold_right]. intros [-> | Hin]; [lia |]. specialize (IH Hin). lia.
Qed.

Lemma fresh_id_fresh (rows : list Harga.row) :
  ~ In (fresh_id rows) (map Harga.id rows).
Proof.
  intros Hin. apply in_map_iff in Hin. destruct Hin as (r & Heq & Hr).
  pose proof (fresh_id_above rows r Hr). lia.
Qed.

Lemma map_id_repriced (k : Z) (P : float) (rows : list Harga.row) :
  map Harga.id (repriced k P rows) = map Harga.id rows.
Proof.
  unfold repriced. rewrite map_map. apply map_ext.
  intros r. destruct (Harga.id r =? k); reflexivity.
Qed.

Lemma primary_key_inj (rows : list Harga.row) (a b : Harga.row) :
  primary_key rows -> In a rows -> In b rows -> Harga.id a = Harga.id b ->
  a = b.
Proof.
  unfold primary_key. induction rows as [| x rows IH]; simpl; [contradiction |].
  intros Hnd Ha Hb Heq. apply NoDup_cons_iff in Hnd. destruct Hnd as [Hx Hnd].
  destruct Ha as [-> | Ha], Hb as [-> | Hb].
  - reflexivity.
  - exfalso. apply Hx. rewrite Heq. apply in_map. exact Hb.
  - exfalso. apply Hx. rewrite <- Heq. apply in_map. exact Ha.
  - apply IH; assumption.
Qed.

Lemma NoDup_snoc {A} (l : list A) (x : A) :
  NoDup l -> ~ In x l -> NoDup (l ++ [x]).
Proof.
  induction l as [| a l IH]; simpl; intros Hnd Hx.
  - constructor; [intros [] | constructor].
  - apply NoDup_cons_iff in Hnd. destruct Hnd as [Ha Hnd]. constructor.
    + rewrite in_app_iff. simpl. intros [H | [H | []]]; [contradiction |].
      apply Hx. left. symmetry. exact H.
    + apply IH; [exact Hnd |]. intros H. apply Hx. right. exact H.
Qed.

Section Survive.

Variable E : env.

(** The upsert keeps the key a key, whatever the store does. *)
Lemma save_price_keeps_key (stock : Saham.row) (data : Price.t) (w : world) :
  primary_key (harga w) ->
  primary_key (harga (snd (save_price_to_supabase E stock data w))).
Proof.
  intros Hk. unfold primary_key in *.
  destruct (save_price_table E stock data w)
    as [-> | [(sel & more & _ & ->) | [_ ->]]].
  - exact Hk.
  - rewrite map_id_repriced. exact Hk.
  - rewrite map_app. apply NoDup_snoc; [exact Hk | apply fresh_id_fresh].
Qed.

(** The upsert of another instrument does not reach the row. *)
Lemma save_price_keeps_row (stock : Saham.row) (data : Price.t) (w : world)
    (X : Z) (D : string) (P : float) :
  Saham.id stock <> X ->
  primary_key (harga w) ->
  holds_row X D P (harga w) ->
  holds_row X D P (harga (snd (save_price_to_supabase E stock data w))).
Proof.
  intros Hne Hk (r & Hin & HX & HD & HP).
  destruct (save_price_table E stock data w)
    as [-> | [(sel & more & Hsel & ->) | [_ ->]]].
  - exists r. repeat split; assumption.
  - exists r. repeat split; try assumption.
    assert (Hs : In sel (rows_for (Saham.id stock) (Price.date data) (harga w)))
      by (rewrite Hsel; left; reflexivity).
    unfold rows_for in Hs. apply filter_In in Hs. destruct Hs as [Hsin Hfor].
    apply for_pair_true in Hfor. destruct Hfor as [Hsx _].
    unfold repriced. apply in_map_iff. exists r. split; [| exact Hin].
    destruct (Z.eqb_spec (Harga.id r) (Harga.id sel)) as [Hid | Hid];
      [| reflexivity].
    exfalso. apply Hne.
    rewrite <- Hsx, <- (primary_key_inj _ _ _ Hk Hin Hsin Hid). exact HX.
  - exists r. repeat split; try assumption. apply in_or_app. left. exact Hin.
Qed.

(** With the store serving, the upsert leaves a row with the instrument,
    the date and the price. *)
Lemma save_price_writes_row (stock : Saham.row) (data : Price.t) (w : world) :
  served E (requests w) 2 ->
  holds_row (Saham.id stock) (Price.date data) (Price.close data)
    (harga (snd (save_price_to_supabase E stock data w))).
Proof.
  intros Hs. rewrite (save_price_served E stock data w Hs).
  destruct (rows_for (Saham.id stock) (Price.date data) (harga w))
    as [| sel more] eqn:Hrows; simpl.
  - exists (inserted (Saham.id stock) (Price.date data) (Price.close data)
              (harga w)).
    split; [apply in_or_app; right; left; reflexivity |].
    repeat split.
  - assert (Hsel : In sel (rows_for (Saham.id stock) (Price.date data) (harga w)))
      by (rewrite Hrows; left; reflexivity).
    unfold rows_for in Hsel. apply filter_In in Hsel.
    destruct Hsel as [Hin Hfor]. apply for_pair_true in Hfor.
    destruct Hfor as [HX HD].
    exists (with_close_price (Price.close data) sel). split.
    + unfold repriced. apply in_map_iff. exists sel.
      rewrite Z.eqb_refl. split; [reflexivity | exact Hin].
    + repeat split; assumption.
Qed.

Lemma process_stock_keeps_key (s : Saham.row) :
  preserves (fun w => primary_key (harga w)) (process_stock E s).
Proof.
  apply process_stock_stable; try (intros; assumption).
  intros data w Hw. apply save_price_keeps_key. exact Hw.
Qed.

Lemma process_stock_keeps_row (s : Saham.row) (X : Z) (D : string)
    (P : float) :
  Saham.id s <> X ->
  preserves (fun w => primary_key (harga w) /\ holds_row X D P (harga w))
    (process_stock E s).
Proof.
  intros Hne. apply process_stock_stable; try (intros; assumption).
  intros data w [Hk Hr]. split.
  - apply save_price_keeps_key. exact Hk.
  - apply save_price_keeps_row; assumption.
Qed.

(** A turn whose price was fetched and whose two store requests are served
    leaves the row, whatever became of the requests before it. *)
Lemma process_stock_writes_row (s : Saham.row) (sym : string) (p : Price.t)
    (w : world) :
  served E (requests w) 2 ->
  Saham.yahoo_symbol s = Some sym -> sym <> "" ->
  last_price (yf_history E sym "5d" "1d") = Some p ->
  holds_row (Saham.id s) (Price.date p) (Price.close p)
    (harga (snd (process_stock E s w))).
Proof.
  intros Hs Hsym Hne Hp. rewrite process_stock_cases, Hsym.
  destruct sym as [| c sym]; [contradiction |]. cbv zeta. rewrite Hp.
  pose proof (save_price_writes_row s p
                (snd (fetch_price E (String c sym) w))) as Hrow.
  rewrite (proj2 (fetch_price_keeps_store E (String c sym) w)) in Hrow.
  destruct (save_price_to_supabase E s p _) as [[action | e] w2];
    simpl in *; apply Hrow; exact Hs.
Qed.

Lemma loop_keeps_key (stocks : list Saham.row) :
  preserves (fun w => primary_key (harga w)) (for_each stocks (process_stock E)).
Proof. apply preserves_for_each. intros s. apply process_stock_keeps_key. Qed.

(** The turns of other instruments leave the row where it is, whether their
    own requests are served or not. *)
Lemma loop_keeps_row (X : Z) (D : string) (P : float)
    (stocks : list Saham.row) :
  (forall y, In y stocks -> Saham.id y <> X) ->
  preserves (fun w => primary_key (harga w) /\ holds_row X D P (harga w))
    (for_each stocks (process_stock E)).
Proof.
  induction stocks as [| y l IHl]; intros Hy w1 Hw1; [exact Hw1 |].
  rewrite for_each_cons. apply IHl.
  - intros z Hz. apply Hy. right. exact Hz.
  - apply (process_stock_keeps_row y); [| exact Hw1].
    apply Hy. left. reflexivity.
Qed.

(** An instrument whose price was fetched and whose own two store requests
    are served has its row in the table when the loop ends, whatever the
    store did with the requests of the instruments before and after it. *)
Lemma loop_saves_served (before after : list Saham.row) (s : Saham.row)
    (sym : string) (p : Price.t) (w : world) :
  primary_key (harga w) ->
  NoDup (map Saham.id (before ++ s :: after)) ->
  Saham.yahoo_symbol s = Some sym -> sym <> "" ->
  last_price (yf_history E sym "5d" "1d") = Some p ->
  served E (requests (snd (for_each before (process_stock E) w))) 2 ->
  holds_row (Saham.id s) (Price.date p) (Price.close p)
    (harga (snd (for_each (before ++ s :: after) (process_stock E) w))).
Proof.
  intros Hk Hnd Hsym Hne Hp Hs. rewrite loop_split, for_each_cons.
  pose proof (loop_keeps_key before w Hk) as Hk0.
  apply (loop_keeps_row (Saham.id s) (Price.date p) (Price.close p) after).
  - intros y Hy Heq. rewrite map_app in Hnd. apply NoDup_remove_2 in Hnd.
    apply Hnd. rewrite <- Heq. apply in_or_app. right. apply in_map. exact Hy.
  - split.
    + apply process_stock_keeps_key. exact Hk0.
    + apply (process_stock_writes_row s sym p); assumption.
Qed.

(** With the store serving, a key on the price table and instruments of
    distinct ids, every instrument whose price was fetched has its row in the
    table when the loop ends. *)
Lemma loop_saves (stocks : list Saham.row) :
  all_served E ->
  NoDup (map Saham.id stocks) ->
  forall w, primary_key (harga w) ->
  forall s sym p, In s stocks ->
    Saham.yahoo_symbol s = Some sym -> sym <> "" ->
    last_price (yf_history E sym "5d" "1d") = Some p ->
    holds_row (Saham.id s) (Price.date p) (Price.close p)
      (harga (snd (for_each stocks (process_stock E) w))).
Proof.
  intros Hall Hnd w Hk s sym p Hin Hsym Hne Hp.
  destruct (in_split s stocks Hin) as (before & after & ->).
  apply (loop_saves_served before after s sym p w); try assumption.
  intros i _. apply Hall.
Qed.

End Survive.

(** C7.  The loop over the instruments never raises, whatever the provider
    and the store do.  For every instrument of the list with a symbol, at
    whatever place it stands: the loop goes on with the instruments after it
    from the world its turn left; it is fetched; a fetch that gives no data
    leaves a warning and sends nothing to the store; a save that raises
    leaves the warning with its exception, and a store request that is not
    served makes it raise; a save that returns leaves its record.  An
    instrument whose price was fetched and whose own two store requests are
    served has its row in the table when the loop ends, whatever the
    provider and the store did for the instruments before and after it
    ([id] being a key of the price table and the instruments of distinct
    ids). *)
Theorem loop_skips_failures (E : env) (stocks : list Saham.row) (w : world) :
  let out := for_each stocks (process_stock E) w in
  fst out = Ok tt /\
  forall before s after sym,
    stocks = before ++ s :: after ->
    Saham.yahoo_symbol s = Some sym -> sym <> "" ->
    let w0 := snd (for_each before (process_stock E) w) in
    let w1 := snd (process_stock E s w0) in
    let save p := save_price_to_supabase E s p (snd (fetch_price E sym w0)) in
    snd out = snd (for_each after (process_stock E) w1) /\
    In (sym, "5d", "1d") (yf_requests (snd out)) /\
    (last_price (yf_history E sym "5d" "1d") = None ->
       In (WARNING, MsgNoData (Some sym) (Saham.kode s)) (log (snd out)) /\
       harga w1 = harga w0 /\ requests w1 = requests w0) /\
    (forall p, last_price (yf_history E sym "5d" "1d") = Some p ->
       (forall e, fst (save p) = Raise e ->
          In (WARNING, MsgSaveFailed (Saham.kode s) (Some sym) e)
             (log (snd out))) /\
       (store_outcome E (requests w0) <> Served ->
          In (WARNING, MsgSaveFailed (Saham.kode s) (Some sym)
                         (StoreError (requests w0))) (log (snd out))) /\
       (store_outcome E (requests w0) = Served ->
        store_outcome E (S (requests w0)) <> Served ->
          In (WARNING, MsgSaveFailed (Saham.kode s) (Some sym)
                         (StoreError (S (requests w0)))) (log (snd out))) /\
       (forall action, fst (save p) = Ok action ->
          In (INFO, MsgSaved (Saham.kode s) (Some sym) (Price.date p)
                      (Price.close p) action) (log (snd out))) /\
       (served E (requests w0) 2 ->
        primary_key (harga w) -> NoDup (map Saham.id stocks) ->
          holds_row (Saham.id s) (Price.date p) (Price.close p)
            (harga (snd out)))).
Proof.
  intros out. subst out. split; [apply loop_returns |].
  intros before s after sym -> Hsym Hne w0 w1 save.
  assert (Hout : snd (for_each (before ++ s :: after) (process_stock E) w)
                 = snd (for_each after (process_stock E) w1)).
  { rewrite loop_split, for_each_cons. reflexivity. }
  assert (Hlog : forall a, In a (log w1) ->
            In a (log (snd (for_each (before ++ s :: after)
                              (process_stock E) w)))).
  { intros a Ha. rewrite Hout. apply (loop_keeps_log E a after). exact Ha. }
  destruct (process_stock_outcome E s sym w0 Hsym Hne) as [Hnone Hsome].
  split; [exact Hout | split; [| split]].
  - assert (Hin : In s (before ++ s :: after))
      by (apply in_or_app; right; left; reflexivity).
    destruct (loop_visits E (before ++ s :: after) w s Hin) as (w' & _ & Hyf).
    apply Hyf. apply (process_stock_records E s sym w' Hsym Hne).
  - intros Hp. destruct (Hnone Hp) as (Hwarn & Hharga & Hreq).
    split; [apply Hlog; exact Hwarn | split; assumption].
  - intros p Hp. destruct (Hsome p Hp) as [Hraise Hok].
    assert (Hstore : requests (snd (fetch_price E sym w0)) = requests w0)
      by apply fetch_price_keeps_store.
    destruct (save_price_raises E s p (snd (fetch_price E sym w0)))
      as [Hfirst Hsecond].
    rewrite Hstore in Hfirst, Hsecond.
    split; [| split; [| split; [| split]]].
    + intros e He. apply Hlog. apply Hraise. exact He.
    + intros H0. apply Hlog. apply Hraise. apply Hfirst. exact H0.
    + intros H0 H1. apply Hlog. apply Hraise. apply Hsecond; assumption.
    + intros action Ha. apply Hlog. apply Hok. exact Ha.
    + intros Hs Hk Hnd.
      apply (loop_saves_served E before after s sym p w); assumption.
Qed.

Lemma loop_skips_failures_witness :
  (let out :=
     for_each [Scenario.bbca; Scenario.tlkm; Scenario.asii]
       (process_stock Scenario.batch_env) Scenario.batch_store in
   holds_row 1 "2024-03-01" 9500 (harga (snd out)) /\
   In (WARNING, MsgNoData (Some "TLKM.JK") (Some "TLKM")) (log (snd out)) /\
   holds_row 3 "2024-03-01" 5200 (harga (snd out))) /\
  (let out :=
     for_each [Scenario.bbca; Scenario.tlkm; Scenario.asii]
       (process_stock Scenario.first_refused) Scenario.batch_store in
   In (WARNING, MsgSaveFailed (Some "BBCA") (Some "BBCA.JK") (StoreError 0))
      (log (snd out)) /\
   In (WARNING, MsgNoData (Some "TLKM.JK") (Some "TLKM")) (log (snd out)) /\
   holds_row 3 "2024-03-01" 5200 (harga (snd out))).
Proof.
  assert (Hk : primary_key (harga Scenario.batch_store)) by constructor.
  assert (Hnd : NoDup (map Saham.id
                         [Scenario.bbca; Scenario.tlkm; Scenario.asii])).
  { simpl. repeat constructor; simpl; intros H;
      repeat (destruct H as [H | H]; try discriminate H); exact H. }
  split.
  - destruct (loop_skips_failures Scenario.batch_env
                [Scenario.bbca; Scenario.tlkm; Scenario.asii]
                Scenario.batch_store) as [_ Hturn].
    pose proof (Hturn [] Scenario.bbca [Scenario.tlkm; Scenario.asii]
                  "BBCA.JK" eq_refl eq_refl ltac:(discriminate)) as Hbbca.
    pose proof (Hturn [Scenario.bbca] Scenario.tlkm [Scenario.asii]
                  "TLKM.JK" eq_refl eq_refl ltac:(discriminate)) as Htlkm.
    pose proof (Hturn [Scenario.bbca; Scenario.tlkm] Scenario.asii []
                  "ASII.JK" eq_refl eq_refl ltac:(discriminate)) as Hasii.
    cbv zeta in Hbbca, Htlkm, Hasii.
    destruct Hbbca as (_ & _ & _ & Hbbca), Htlkm as (_ & _ & Htlkm & _),
      Hasii as (_ & _ & _ & Hasii).
    split; [| split].
    + apply (Hbbca (Price.mk "2024-03-01" 9500) eq_refl);
        [intros i _; reflexivity | exact Hk | exact Hnd].
    + apply Htlkm. reflexivity.
    + apply (Hasii (Price.mk "2024-03-01" 5200) eq_refl);
        [intros i _; reflexivity | exact Hk | exact Hnd].
  - destruct (loop_skips_failures Scenario.first_refused
                [Scenario.bbca; Scenario.tlkm; Scenario.asii]
                Scenario.batch_store) as [_ Hturn].
    pose proof (Hturn [] Scenario.bbca [Scenario.tlkm; Scenario.asii]
                  "BBCA.JK" eq_refl eq_refl ltac:(discriminate)) as Hbbca.
    pose proof (Hturn [Scenario.bbca] Scenario.tlkm [Scenario.asii]
                  "TLKM.JK" eq_refl eq_refl ltac:(discriminate)) as Htlkm.
    pose proof (Hturn [Scenario.bbca; Scenario.tlkm] Scenario.asii []
                  "ASII.JK" eq_refl eq_refl ltac:(discriminate)) as Hasii.
    cbv zeta in Hbbca, Htlkm, Hasii.
    destruct Hbbca as (_ & _ & _ & Hbbca), Htlkm as (_ & _ & Htlkm & _),
      Hasii as (_ & _ & _ & Hasii).
    split; [| split].
    + apply (Hbbca (Price.mk "2024-03-01" 9500) eq_refl). discriminate.
    + apply Htlkm. reflexivity.
    + apply (Hasii (Price.mk "2024-03-01" 5200) eq_refl);
        [| exact Hk | exact Hnd].
      intros i Hi. change (1 <= i < 3)%nat in Hi.
      destruct i as [| i]; [lia | reflexivity].
Defined.

(** ** The run as a whole *)

Section Run.

Variable E : env.

(** The run is its price phase followed by its status phase. *)
Lemma run_once_phases (w : world) :
  run_once E w = bind (price_phase E) (fun _ => status_phase E) w.
Proof.
  unfold run_once, price_phase, status_phase, bind, logging_info. simpl.
  destruct (get_tracked_stocks E _) as [[stocks | e] w1]; [| reflexivity].
  destruct (for_each stocks (process_stock E) _) as [[[] | e] w2]; reflexivity.
Qed.

(** Once the instruments are loaded nothing stops the price phase. *)
Lemma price_phase_returns (w : world) :
  store_outcome E (requests w) = Served ->
  fst (price_phase E w) = Ok tt.
Proof.
  intros Hs. unfold price_phase, bind, logging_info. simpl.
  unfold get_tracked_stocks, bind. rewrite execute_served by exact Hs.
  simpl. apply loop_returns.
Qed.

(** A failure to load the instruments is the one error that leaves
    [run_once]. *)
Lemma run_once_propagates_loader_failure (w : world) :
  store_outcome E (requests w) <> Served ->
  fst (run_once E w) = Raise (StoreError (requests w)).
Proof.
  intros Hs. unfold run_once, bind, logging_info. simpl.
  unfold get_tracked_stocks, bind.
  destruct (execute_cases E tracked_query
              (add_log (INFO, MsgStart (datetime_isoformat (datetime_now E ID_TZ))
                                (date_isoformat (clock_date E)))
                 (add_log (INFO, MsgRunOnce (datetime_isoformat (datetime_now E ID_TZ))
                                   (is_market_hours (datetime_now E ID_TZ))) w)))
    as [[H _] | [[_ ->] | [_ ->]]]; [contradiction | reflexivity | reflexivity].
Qed.

Lemma status_phase_returns : returns_normally (status_phase E).
Proof.
  unfold status_phase. apply returns_normally_try_except.
  intros e. apply returns_normally_log.
Qed.

Lemma status_phase_keeps_harga (rows : list Harga.row) :
  preserves (fun w => harga w = rows) (status_phase E).
Proof.
  unfold status_phase. apply preserves_try_except.
  - apply update_system_status_stable; intros; assumption.
  - intros e w Hw. exact Hw.
Qed.

End Run.

(** C8.  Once the instruments are loaded, [run_once] returns normally
    whatever the provider does and whatever the store does with the later
    requests, those of the status step included; so does the script when its
    configuration is present.  A status step that raises is caught and leaves
    a warning.  In every case the price table at the end of the run is the
    one the loop left. *)
Theorem run_once_completes (E : env) (w : world) :
  store_outcome E (requests w) = Served ->
  let now_jkt := datetime_now E ID_TZ in
  let w1 := snd (price_phase E w) in
  fst (run_once E w) = Ok tt /\
  (present (SUPABASE_URL E) -> present (SUPABASE_KEY E) ->
     fst (main E w) = Ok tt) /\
  (forall e,
     fst (update_system_status E now_jkt (is_market_hours now_jkt) w1)
       = Raise e ->
     In (WARNING, MsgStatusFailed e) (log (snd (run_once E w)))) /\
  harga (snd (run_once E w)) = harga w1.
Proof.
  intros Hs now_jkt w1.
  pose proof (price_phase_returns E w Hs) as Hprice.
  assert (Hrun : run_once E w = status_phase E w1).
  { rewrite run_once_phases. unfold bind. subst w1.
    destruct (price_phase E w) as [[[] | e] w']; [reflexivity | discriminate]. }
  assert (Hok : fst (run_once E w) = Ok tt).
  { rewrite Hrun. destruct (status_phase_returns E w1) as [[] H]. exact H. }
  split; [exact Hok | split; [| split]].
  - intros Hu Hk. apply truthy_present in Hu. apply truthy_present in Hk.
    unfold main, bind. rewrite module_init_guard, Hu, Hk. simpl. exact Hok.
  - intros e He. rewrite Hrun. unfold status_phase, try_except.
    fold now_jkt.
    destruct (update_system_status E now_jkt (is_market_hours now_jkt) w1)
      as [[[] | e'] w2]; simpl in He; [discriminate |].
    injection He as ->. simpl. apply in_or_app. right. left. reflexivity.
  - rewrite Hrun. apply (status_phase_keeps_harga E (harga w1)). reflexivity.
Qed.

Lemma run_once_completes_witness :
  fst (run_once Scenario.status_down Scenario.empty_store) = Ok tt /\
  In (WARNING, MsgStatusFailed (StoreError 3))
     (log (snd (run_once Scenario.status_down Scenario.empty_store))) /\
  harga (snd (run_once Scenario.status_down Scenario.empty_store))
    = [Harga.mkRow 1 1 "2024-03-01" 9500].
Proof.
  destruct (run_once_completes Scenario.status_down Scenario.empty_store
              eq_refl) as (Hok & _ & Hwarn & Hharga).
  split; [exact Hok | split].
  - apply Hwarn. reflexivity.
  - rewrite Hharga. reflexivity.
Defined.

(** * Further properties of the code *)

(** ** Upserts for one pair, one after the other *)

Lemma repriced_twice (k : Z) (P1 P2 : float) (rows : list Harga.row) :
  repriced k P2 (repriced k P1 rows) = repriced k P2 rows.
Proof.
  unfold repriced. rewrite map_map. apply map_ext. intros r.
  destruct (Harga.id r =? k) eqn:Hk; simpl; rewrite Hk; reflexivity.
Qed.

(** X1.  On a price table with at most one row for the instrument and the
    date, two upserts of that instrument for that date, both served, leave
    the price table that the second alone would have left, and the second
    reports "update"; the table then holds exactly one row for the pair, and
    that row carries the second price: the last price wins and nothing is
    added twice.  With equal prices this is idempotence of the upsert. *)
Theorem save_price_last_write_wins (E : env) (stock : Saham.row)
    (d1 d2 : Price.t) (w : world) :
  Price.date d1 = Price.date d2 ->
  (List.length (rows_for (Saham.id stock) (Price.date d1) (harga w)) <= 1)%nat ->
  served E (requests w) 4 ->
  let w1 := snd (save_price_to_supabase E stock d1 w) in
  let w2 := snd (save_price_to_supabase E stock d2 w1) in
  fst (save_price_to_supabase E stock d2 w1) = Ok "update" /\
  harga w2 = harga (snd (save_price_to_supabase E stock d2 w)) /\
  exists r,
    rows_for (Saham.id stock) (Price.date d1) (harga w2) = [r] /\
    Harga.close_price r = Price.close d2.
Proof.
  intros Hd Hone Hs w1 w2. subst w2 w1.
  assert (Hs1 : served E (requests w) 2) by (intros i Hi; apply Hs; lia).
  rewrite (save_price_served E stock d1 w Hs1).
  rewrite (save_price_served E stock d2 w Hs1). rewrite <- Hd.
  destruct (rows_for (Saham.id stock) (Price.date d1) (harga w))
    as [| sel more] eqn:Hrows.
  - assert (Hnew : rows_for (Saham.id stock) (Price.date d1)
                     (harga w ++ [inserted (Saham.id stock) (Price.date d1)
                                    (Price.close d1) (harga w)])
                   = [inserted (Saham.id stock) (Price.date d1)
                        (Price.close d1) (harga w)]).
    { rewrite rows_for_app, Hrows. unfold rows_for, inserted, for_pair.
      simpl. rewrite Z.eqb_refl, String.eqb_refl. reflexivity. }
    rewrite save_price_served
      by (intros i Hi; apply Hs; simpl in Hi |- *; lia).
    rewrite <- Hd. cbn [snd harga set_harga]. rewrite Hnew.
    cbn [fst snd harga set_harga]. split; [reflexivity | split].
    + unfold repriced. rewrite map_app.
      fold (repriced (Harga.id (inserted (Saham.id stock) (Price.date d1)
                                  (Price.close d1) (harga w)))
              (Price.close d2) (harga w)).
      rewrite repriced_other_keys by apply fresh_id_fresh.
      unfold inserted. simpl. rewrite Z.eqb_refl. reflexivity.
    + rewrite rows_for_repriced, Hnew. unfold repriced. cbn [map].
      rewrite Z.eqb_refl. eexists. split; reflexivity.
  - destruct more as [| r2 more]; [| simpl in Hone; lia].
    assert (Hold : rows_for (Saham.id stock) (Price.date d1)
                     (repriced (Harga.id sel) (Price.close d1) (harga w))
                   = [with_close_price (Price.close d1) sel]).
    { rewrite rows_for_repriced, Hrows. unfold repriced. cbn [map].
      rewrite Z.eqb_refl. reflexivity. }
    rewrite save_price_served
      by (intros i Hi; apply Hs; simpl in Hi |- *; lia).
    rewrite <- Hd. cbn [snd harga set_harga]. rewrite Hold.
    cbn [fst snd harga set_harga]. split; [reflexivity | split].
    + unfold with_close_price at 1. cbn [Harga.id]. apply repriced_twice.
    + unfold with_close_price at 1. cbn [Harga.id].
      rewrite repriced_twice, rows_for_repriced, Hrows. unfold repriced.
      cbn [map]. rewrite Z.eqb_refl. eexists. split; reflexivity.
Qed.

Lemma save_price_last_write_wins_witness :
  harga (snd (save_price_to_supabase (Scenario.run_at 10 0 9500) Scenario.bbca
                Scenario.second_fetch
                (snd (save_price_to_supabase (Scenario.run_at 10 0 9500)
                        Scenario.bbca Scenario.first_fetch
                        Scenario.empty_store))))
  = [Harga.mkRow 1 1 "2024-03-01" 9550].
Proof.
  assert (Hone : (List.length (rows_for (Saham.id Scenario.bbca)
                                 (Price.date Scenario.first_fetch)
                                 (harga Scenario.empty_store)) <= 1)%nat)
    by (simpl; lia).
  rewrite (proj1 (proj2 (save_price_last_write_wins (Scenario.run_at 10 0 9500)
                    Scenario.bbca Scenario.first_fetch Scenario.second_fetch
                    Scenario.empty_store eq_refl Hone
                    (fun i _ => eq_refl)))).
  reflexivity.
Defined.

(** ** What a run asks of the provider *)

Section Requests.

Variable E : env.

(** One turn with a filled symbol sends exactly one request. *)
Lemma process_stock_request (s : Saham.row) (w : world) :
  symbol_filled (Saham.yahoo_symbol s) = true ->
  yf_requests (snd (process_stock E s w)) = yf_requests w ++ [request_of s].
Proof.
  intros Hf. rewrite process_stock_cases. unfold request_of.
  destruct (Saham.yahoo_symbol s) as [[| c sym] |]; try discriminate Hf.
  cbv zeta. cbn [snd].
  assert (Hreq : yf_requests (snd (fetch_price E (String c sym) w))
                 = yf_requests w ++ [(String c sym, "5d", "1d")]).
  { rewrite fetch_price_eq. cbn [snd]. cbv zeta.
    destruct (yf_history E (String c sym) "5d" "1d") as [e | [| b rest]];
      try destruct (Close (last rest b)); reflexivity. }
  destruct (last_price (yf_history E (String c sym) "5d" "1d")) as [p |];
    [| exact Hreq].
  pose proof (save_price_keeps_records E s p
                (snd (fetch_price E (String c sym) w))) as [_ Hyf].
  destruct (save_price_to_supabase E s p _) as [[action | e] w2];
    simpl in Hyf |- *; rewrite Hyf; exact Hreq.
Qed.

Lemma loop_requests (stocks : list Saham.row) :
  Forall (fun s => symbol_filled (Saham.yahoo_symbol s) = true) stocks ->
  forall w,
    yf_requests (snd (for_each stocks (process_stock E) w))
    = yf_requests w ++ map request_of stocks.
Proof.
  induction 1 as [| s rest Hs Hrest IH]; intros w.
  - simpl. rewrite app_nil_r. reflexivity.
  - rewrite for_each_cons, IH, (process_stock_request s w Hs).
    rewrite <- app_assoc. reflexivity.
Qed.

Lemma status_phase_keeps_requests (l : list (string * string * string)) :
  preserves (fun w => yf_requests w = l) (status_phase E).
Proof.
  unfold status_phase. apply preserves_try_except.
  - apply update_system_status_stable; intros; assumption.
  - intros e w Hw. exact Hw.
Qed.

End Requests.

(** The run from the world in which the instruments were loaded. *)
Lemma run_once_loaded (E : env) (w : world) :
  store_outcome E (requests w) = Served ->
  let now_jkt := datetime_now E ID_TZ in
  let stocks := filter wantedb (saham w) in
  let w0 :=
    add_log (INFO, MsgWillFetch (List.length stocks))
      (add_log (INFO, MsgFound (List.length stocks))
         (count_request
            (add_log (INFO, MsgStart (datetime_isoformat now_jkt)
                              (date_isoformat (dt_date now_jkt)))
               (add_log (INFO, MsgRunOnce (datetime_isoformat now_jkt)
                                 (is_market_hours now_jkt)) w)))) in
  run_once E w
  = status_phase E (snd (for_each stocks (process_stock E) w0)).
Proof.
  intros Hs now_jkt stocks w0.
  rewrite run_once_phases.
  unfold bind, price_phase, get_tracked_stocks, bind, logging_info, ret.
  cbv zeta. rewrite execute_served by exact Hs.
  cbn beta iota. unfold tracked_query, select. cbn [fst snd].
  rewrite filter_filter.
  match goal with
  | |- context [for_each ?l (process_stock E) ?x] =>
      change (for_each l (process_stock E) x)
        with (for_each stocks (process_stock E) w0)
  end.
  pose proof (loop_returns E stocks w0) as Hloop.
  destruct (for_each stocks (process_stock E) w0) as [[[] | e] w1];
    [reflexivity | discriminate Hloop].
Qed.

(** X2.  Once the instruments are loaded, a run asks the provider exactly
    once for each loaded instrument, in table order, for period 5d and
    interval 1d: no instrument is asked twice, none is left out, whatever
    the provider answers and whatever the store does with the writes. *)
Theorem run_once_provider_requests (E : env) (w : world) :
  store_outcome E (requests w) = Served ->
  yf_requests (snd (run_once E w))
  = yf_requests w ++ map request_of (filter wantedb (saham w)).
Proof.
  intros Hs. rewrite (run_once_loaded E w Hs).
  apply status_phase_keeps_requests. rewrite loop_requests; [reflexivity |].
  apply Forall_forall. intros s Hin. apply filter_In in Hin.
  destruct Hin as [_ Hw]. unfold wantedb in Hw.
  apply andb_prop in Hw. exact (proj2 Hw).
Qed.

Lemma run_once_provider_requests_witness :
  yf_requests (snd (run_once Scenario.batch_env Scenario.batch_store))
  = [("BBCA.JK", "5d", "1d"); ("TLKM.JK", "5d", "1d"); ("ASII.JK", "5d", "1d")].
Proof.
  rewrite (run_once_provider_requests Scenario.batch_env Scenario.batch_store
             eq_refl).
  reflexivity.
Defined.

(** ** What a run never does *)

(** X3.  The table of instruments is read, never written: it is the same
    after the script as before, whatever the configuration, the provider and
    the store do. *)
Theorem main_never_writes_saham (E : env) (w : world) :
  saham (snd (run_once E w)) = saham w /\
  saham (snd (main E w)) = saham w.
Proof.
  assert (Hrun : saham (snd (run_once E w)) = saham w).
  { apply (run_once_stable E (fun w' => saham w' = saham w));
      try (intros; assumption); [| reflexivity].
    intros stock data w' Hw'.
    rewrite (proj1 (save_price_frame E stock data w')). exact Hw'. }
  split; [exact Hrun |].
  unfold main, bind. rewrite module_init_guard.
  destruct (truthy (SUPABASE_URL E) && truthy (SUPABASE_KEY E));
    [exact Hrun | reflexivity].
Qed.

Lemma map_row_key_repriced (k : Z) (P : float) (rows : list Harga.row) :
  map row_key (repriced k P rows) = map row_key rows.
Proof.
  unfold repriced. rewrite map_map. apply map_ext.
  intros r. destruct (Harga.id r =? k); reflexivity.
Qed.

(** X4.  A run deletes no price row and moves none to another instrument or
    date: the rows it found keep their place, id, instrument and date (only
    the price can change), and what it adds comes after them.  This holds
    whatever the provider and the store do. *)
Theorem run_once_keeps_price_rows (E : env) (w : world) :
  exists added,
    map row_key (harga (snd (run_once E w)))
    = map row_key (harga w) ++ added.
Proof.
  apply (run_once_stable E
           (fun w' => exists added,
              map row_key (harga w') = map row_key (harga w) ++ added));
    try (intros; assumption).
  - intros stock data w' [added Hw'].
    destruct (save_price_table E stock data w')
      as [-> | [(sel & more & _ & ->) | [_ ->]]].
    + exists added. exact Hw'.
    + exists added. rewrite map_row_key_repriced. exact Hw'.
    + eexists. rewrite map_app, Hw', <- app_assoc. reflexivity.
  - exists []. rewrite app_nil_r. reflexivity.
Qed.

(** ** A run that cannot load the instruments *)

(** X5.  When the query for the tracked instruments fails, [run_once] raises
    the store's error at once: the provider is not asked, no table changes,
    the status row is not stamped, and the log holds the two opening records
    only. *)
Theorem run_once_load_failure (E : env) (w : world) :
  store_outcome E (requests w) <> Served ->
  let now_jkt := datetime_now E ID_TZ in
  let out := run_once E w in
  fst out = Raise (StoreError (requests w)) /\
  yf_requests (snd out) = yf_requests w /\
  saham (snd out) = saham w /\
  harga (snd out) = harga w /\
  status (snd out) = status w /\
  log (snd out)
    = log w ++ [(INFO, MsgRunOnce (datetime_isoformat now_jkt)
                         (is_market_hours now_jkt));
                (INFO, MsgStart (datetime_isoformat now_jkt)
                         (date_isoformat (dt_date now_jkt)))].
Proof.
  intros Hs now_jkt out. subst out.
  unfold run_once, bind, logging_info. cbv zeta. fold now_jkt.
  unfold get_tracked_stocks, bind.
  match goal with
  | |- context [execute E tracked_query ?x] =>
      destruct (execute_cases E tracked_query x)
        as [[H _] | [[_ ->] | [_ ->]]]
  end; [contradiction | |]; simpl; rewrite <- app_assoc; repeat split.
Qed.

Lemma run_once_load_failure_witness :
  fst (run_once (mkEnv Scenario.getenv (mkDate 2024 3 1) (mkTime 10 0 0 0)
                   (Scenario.provider 9500) (fun _ => Refused))
         Scenario.empty_store)
  = Raise (StoreError 0).
Proof.
  refine (proj1 (run_once_load_failure _ Scenario.empty_store _)).
  discriminate.
Defined.

(** ** An instrument without data *)

(** X6.  A turn of the loop whose fetch gives no data sends no request to
    the store and leaves the three tables as they were; it costs one
    provider request and two warnings at most. *)
Theorem process_stock_no_data (E : env) (s : Saham.row) (sym : string)
    (w : world) :
  Saham.yahoo_symbol s = Some sym -> sym <> "" ->
  last_price (yf_history E sym "5d" "1d") = None ->
  let w1 := snd (process_stock E s w) in
  requests w1 = requests w /\
  saham w1 = saham w /\ harga w1 = harga w /\ status w1 = status w /\
  yf_requests w1 = yf_requests w ++ [(sym, "5d", "1d")] /\
  (exists warnings,
     log w1 = log w ++ warnings /\ (List.length warnings <= 2)%nat /\
     Forall (fun r => fst r = WARNING) warnings).
Proof.
  intros Hsym Hne Hp w1. subst w1. rewrite process_stock_cases, Hsym.
  destruct sym as [| c sym]; [contradiction |]. cbv zeta. rewrite Hp.
  rewrite fetch_price_eq. cbn [snd]. cbv zeta.
  unfold last_price in Hp.
  destruct (yf_history E (String c sym) "5d" "1d") as [e | [| b rest]].
  - repeat split. eexists. simpl. rewrite <- app_assoc. split; [reflexivity |].
    split; [simpl; lia | repeat constructor].
  - repeat split. eexists. simpl. rewrite <- app_assoc. split; [reflexivity |].
    split; [simpl; lia | repeat constructor].
  - destruct (Close (last rest b)); [discriminate |].
    repeat split. eexists. simpl. rewrite <- app_assoc. split; [reflexivity |].
    split; [simpl; lia | repeat constructor].
Qed.

Lemma process_stock_no_data_witness :
  requests (snd (process_stock Scenario.batch_env Scenario.tlkm
                   Scenario.batch_store)) = 0%nat.
Proof.
  refine (proj1 (process_stock_no_data Scenario.batch_env Scenario.tlkm
                   "TLKM.JK" Scenario.batch_store eq_refl _ eq_refl)).
  discriminate.
Defined.

(** ** The status row over several runs *)

Lemma singletons_stamped (B : bool) (ts : string) (rows : list Status.row) :
  filter (fun r => Status.id r =? 1) (stamped B ts rows)
  = stamped B ts (filter (fun r => Status.id r =? 1) rows).
Proof.
  unfold stamped. induction rows as [| r rows IH]; simpl; [reflexivity |].
  destruct (Status.id r =? 1) eqn:Hid.
  - assert (Hk : (Status.id (set_field (if B then last_auto_update_at
                                         else last_out_of_hours_run) ts r)
                  =? 1) = true) by (destruct B; exact Hid).
    rewrite Hk. simpl. rewrite Hid, IH. reflexivity.
  - rewrite Hid. exact IH.
Qed.

(** Whatever the store does with the requests of the status step, the
    status table ends as it was, stamped, or stamped and extended by the
    first stamp when the row of id 1 was missing. *)
Lemma update_system_status_table (E : env) (now : datetime) (B : bool)
    (w : world) :
  let ts := datetime_isoformat now in
  let rows' := status (snd (update_system_status E now B w)) in
  rows' = status w
  \/ rows' = stamped B ts (status w)
  \/ (filter (fun r => Status.id r =? 1) (status w) = [] /\
      rows' = stamped B ts (status w) ++ [first_stamp B ts]).
Proof.
  intros ts. unfold update_system_status, bind. fold ts.
  destruct (execute_cases E
              (status_update (if B then last_auto_update_at
                              else last_out_of_hours_run) ts) w)
    as [[_ ->] | [[_ ->] | [_ ->]]]; simpl;
    [| left; reflexivity | right; left; reflexivity].
  destruct (filter (fun r => Status.id r =? 1) (status w)) as [| r rest] eqn:Hf;
    simpl; [| right; left; reflexivity].
  destruct (execute_cases E
              (status_insert (if B then last_auto_update_at
                              else last_out_of_hours_run) ts)
              (set_status (stamped B ts (status w)) (count_request w)))
    as [[_ H] | [[_ H] | [_ H]]];
    unfold stamped in H; rewrite H; simpl.
  - right; right. split; reflexivity.
  - right; left. reflexivity.
  - right; right. split; reflexivity.
Qed.

Lemma update_system_status_singleton (E : env) (now : datetime) (B : bool) :
  preserves (fun w => singleton_at_most (status w))
    (update_system_status E now B).
Proof.
  intros w Hw. unfold singleton_at_most in *.
  destruct (update_system_status_table E now B w) as [-> | [-> | [Hnone ->]]].
  - exact Hw.
  - rewrite singletons_stamped. unfold stamped. rewrite length_map. exact Hw.
  - rewrite filter_app, length_app, singletons_stamped, Hnone.
    destruct B; simpl; lia.
Qed.

Lemma price_phase_keeps_status (E : env) (rows : list Status.row) :
  preserves (fun w => status w = rows) (price_phase E).
Proof.
  unfold price_phase.
  apply preserves_bind; [apply logging_stable; intros; assumption | intros _].
  apply preserves_bind; [apply logging_stable; intros; assumption | intros _].
  apply preserves_bind;
    [apply get_tracked_stocks_stable; intros; assumption | intros stocks].
  apply preserves_bind; [apply logging_stable; intros; assumption | intros _].
  apply preserves_for_each. intros s.
  apply process_stock_stable; try (intros; assumption).
  intros data w Hw.
  rewrite (proj1 (proj2 (save_price_frame E s data w))). exact Hw.
Qed.

(** X7.  The status step never makes a second row of id 1: a status table
    with at most one such row has at most one after the step and after a
    whole run, whatever the store does with the requests (served, refused,
    or carried out with the answer lost). *)
Theorem status_singleton_kept (E : env) (now : datetime) (B : bool)
    (w : world) :
  singleton_at_most (status w) ->
  singleton_at_most (status (snd (update_system_status E now B w))) /\
  singleton_at_most (status (snd (run_once E w))).
Proof.
  intros Hw. split; [apply update_system_status_singleton; exact Hw |].
  rewrite run_once_phases. unfold bind.
  pose proof (price_phase_keeps_status E (status w) w eq_refl) as Hp.
  destruct (price_phase E w) as [[[] | e] w1]; simpl in Hp |- *;
    [| rewrite Hp; exact Hw].
  unfold status_phase.
  apply (preserves_try_except (fun w' => singleton_at_most (status w'))).
  - apply update_system_status_singleton.
  - intros e w' Hw'. exact Hw'.
  - rewrite Hp. exact Hw.
Qed.

Lemma status_singleton_kept_witness :
  singleton_at_most
    (status (snd (run_once Scenario.status_down Scenario.stamped_off_hours))).
Proof.
  refine (proj2 (status_singleton_kept Scenario.status_down Scenario.friday_10
                   true Scenario.stamped_off_hours _)).
  unfold singleton_at_most. simpl. lia.
Defined.

(** With its requests served the status step leaves this world. *)
Lemma update_system_status_world (E : env) (now : datetime) (B : bool)
    (w : world) :
  served E (requests w) 2 ->
  let ts := datetime_isoformat now in
  update_system_status E now B w =
    (Ok tt,
     if has_singleton (status w) then
       set_status (stamped B ts (status w)) (count_request w)
     else
       set_status (status w ++ [first_stamp B ts])
         (count_request (count_request w))).
Proof.
  intros Hs ts.
  assert (H0 : store_outcome E (requests w) = Served) by (apply Hs; lia).
  assert (H1 : store_outcome E (S (requests w)) = Served) by (apply Hs; lia).
  unfold update_system_status, bind. fold ts.
  rewrite (execute_served E _ w H0). simpl. unfold has_singleton.
  destruct (filter (fun r => Status.id r =? 1) (status w)) as [| r rest] eqn:Hf;
    simpl.
  - rewrite execute_served by exact H1. simpl.
    apply filter_nil_existsb in Hf. rewrite Hf.
    rewrite (update_no_match _ _ _ Hf). reflexivity.
  - destruct (existsb (fun r0 => Status.id r0 =? 1) (status w)) eqn:He.
    + reflexivity.
    + apply filter_nil_existsb in He. rewrite He in Hf. discriminate.
Qed.

(** X8.  Starting without the status row, a run of one kind followed by a
    run of the other kind, all requests served, leaves exactly one new row:
    id 1, the first timestamp in the column of the first kind and the second
    timestamp in the other column.  The column left NULL by the first
    insert is filled by the first run of the opposite kind. *)
Theorem status_opposite_runs (E : env) (now1 now2 : datetime) (B : bool)
    (w : world) :
  served E (requests w) 4 ->
  has_singleton (status w) = false ->
  let w1 := snd (update_system_status E now1 B w) in
  let w2 := snd (update_system_status E now2 (negb B) w1) in
  exists r,
    status w2 = status w ++ [r] /\
    Status.id r = 1 /\
    selected_field B r = Some (datetime_isoformat now1) /\
    other_field B r = Some (datetime_isoformat now2).
Proof.
  intros Hs Hnone w1 w2. subst w2 w1.
  rewrite (update_system_status_world E now1 B w)
    by (intros i Hi; apply Hs; lia).
  rewrite Hnone. cbn [snd].
  rewrite update_system_status_world
    by (intros i Hi; apply Hs; simpl in Hi |- *; lia).
  cbn [snd status set_status count_request].
  assert (Hhas : has_singleton
                   (status w ++ [first_stamp B (datetime_isoformat now1)])
                 = true).
  { unfold has_singleton. rewrite existsb_app. apply orb_true_iff. right.
    destruct B; reflexivity. }
  rewrite Hhas. cbn [status set_status].
  unfold stamped. rewrite map_app.
  rewrite (update_no_match _ _ _ Hnone).
  eexists. split; [reflexivity |].
  destruct B; simpl; repeat split.
Qed.

Lemma status_opposite_runs_witness :
  status
    (snd (update_system_status (Scenario.run_at 10 0 9500)
            (mkDatetime (mkDate 2024 3 1) (mkTime 20 0 0 0) ID_TZ) false
            (snd (update_system_status (Scenario.run_at 10 0 9500)
                    Scenario.friday_10 true Scenario.empty_store))))
  = [Status.mkRow 1 (Some "2024-03-01T10:00:00+07:00")
       (Some "2024-03-01T20:00:00+07:00")].
Proof.
  destruct (status_opposite_runs (Scenario.run_at 10 0 9500)
              Scenario.friday_10
              (mkDatetime (mkDate 2024 3 1) (mkTime 20 0 0 0) ID_TZ) true
              Scenario.empty_store (fun i _ => eq_refl) eq_refl)
    as (r & Hrows & Hid & Hsel & Hoth).
  etransitivity; [exact Hrows |]. destruct r as [i a o].
  simpl in Hid, Hsel, Hoth. rewrite Hid, Hsel, Hoth. reflexivity.
Defined.

(** X9.  With the store serving, a run stamps the status row with its own
    start time, in [last_auto_update_at] when the start time is within
    market hours and in [last_out_of_hours_run] otherwise; the loop over the
    instruments has no part in it. *)
Theorem run_once_stamps_status (E : env) (w : world) :
  all_served E ->
  let now_jkt := datetime_now E ID_TZ in
  let ts := datetime_isoformat now_jkt in
  let B := is_market_hours now_jkt in
  status (snd (run_once E w)) =
    if has_singleton (status w) then stamped B ts (status w)
    else status w ++ [first_stamp B ts].
Proof.
  intros Hall now_jkt ts B.
  pose proof (price_phase_keeps_status E (status w) w eq_refl) as Hp.
  pose proof (price_phase_returns E w (Hall _)) as Hret.
  rewrite run_once_phases. unfold bind.
  destruct (price_phase E w) as [[[] | e] w1]; [| discriminate Hret].
  simpl in Hp. unfold status_phase, try_except. fold now_jkt.
  rewrite (update_system_status_world E now_jkt (is_market_hours now_jkt) w1)
    by (intros i _; apply Hall).
  fold ts B. cbn [snd]. rewrite Hp.
  destruct (has_singleton (status w)); reflexivity.
Qed.

Lemma run_once_stamps_status_witness :
  status (snd (run_once (Scenario.run_at 16 0 9500) Scenario.empty_store))
  = [Status.mkRow 1 None (Some "2024-03-01T16:00:00+07:00")].
Proof.
  rewrite (run_once_stamps_status (Scenario.run_at 16 0 9500)
             Scenario.empty_store (fun n => eq_refl)).
  reflexivity.
Defined.

(** ** The credential of the client *)

(** X10.  When start-up succeeds the client holds the endpoint as set, and as
    credential the service-role key whenever that variable is set to
    something; the anonymous key is used only when the service-role key is
    unset or empty, and then it is set to something. *)
Theorem module_init_credential (E : env) (w w' : world) (c : client) :
  module_init E w = (Ok c, w') ->
  w' = w /\
  client_url c = os_getenv E "SUPABASE_URL" /\
  present (client_url c) /\ present (client_key c) /\
  (present (os_getenv E "SUPABASE_SERVICE_ROLE_KEY") ->
     client_key c = os_getenv E "SUPABASE_SERVICE_ROLE_KEY") /\
  (~ present (os_getenv E "SUPABASE_SERVICE_ROLE_KEY") ->
     client_key c = os_getenv E "SUPABASE_ANON_KEY").
Proof.
  rewrite module_init_guard.
  destruct (truthy (SUPABASE_URL E)) eqn:Hu; [| discriminate].
  destruct (truthy (SUPABASE_KEY E)) eqn:Hk; [| discriminate].
  simpl. intros H. injection H as <- <-. simpl.
  split; [reflexivity | split; [reflexivity |]].
  split; [apply truthy_present; exact Hu |].
  split; [apply truthy_present; exact Hk |].
  unfold SUPABASE_KEY, py_or. split.
  - intros Hp. apply truthy_present in Hp. rewrite Hp. reflexivity.
  - intros Hp.
    destruct (truthy (os_getenv E "SUPABASE_SERVICE_ROLE_KEY")) eqn:Hv;
      [| reflexivity].
    exfalso. apply Hp. apply truthy_present. exact Hv.
Qed.

Lemma module_init_credential_witness :
  client_key (create_client (SUPABASE_URL (Scenario.run_at 10 0 9500))
                (SUPABASE_KEY (Scenario.run_at 10 0 9500)))
  = Some "service-role".
Proof.
  refine (proj1 (proj2 (proj2 (proj2 (proj2
            (module_init_credential (Scenario.run_at 10 0 9500)
               Scenario.empty_store Scenario.empty_store _ eq_refl))))) _).
  apply truthy_present. reflexivity.
Defined.

(** ** The date string as a key *)

Lemma string_length_app (s t : string) :
  String.length (s ++ t) = (String.length s + String.length t)%nat.
Proof. induction s as [| c s IH]; simpl; [reflexivity | rewrite IH; reflexivity]. Qed.

Lemma string_app_inj (s1 s2 t1 t2 : string) :
  String.length s1 = String.length s2 ->
  (s1 ++ t1 = s2 ++ t2)%string -> s1 = s2 /\ t1 = t2.
Proof.
  revert s2. induction s1 as [| c s1 IH]; intros [| c2 s2]; simpl;
    try discriminate.
  - intros _ H. split; [reflexivity | exact H].
  - intros Hlen H. injection Hlen as Hlen. injection H as -> H.
    destruct (IH s2 Hlen H) as [-> ->]. split; reflexivity.
Qed.

Lemma zero_padded_length (w : nat) (n : Z) :
  String.length (zero_padded w n) = w.
Proof.
  revert n. induction w as [| w IH]; intros n; simpl; [reflexivity |].
  rewrite string_length_app, IH. simpl. lia.
Qed.

Lemma digit_inj (a b : Z) : digit a = digit b -> a mod 10 = b mod 10.
Proof.
  unfold digit. intros H.
  pose proof (Z.mod_pos_bound a 10 ltac:(lia)) as Ha.
  pose proof (Z.mod_pos_bound b 10 ltac:(lia)) as Hb.
  apply (f_equal nat_of_ascii) in H.
  rewrite !nat_ascii_embedding in H by lia. lia.
Qed.

(** A number that fits its width can be read back from its digits. *)
Lemma zero_padded_inj (w : nat) :
  forall a b, 0 <= a < 10 ^ Z.of_nat w -> 0 <= b < 10 ^ Z.of_nat w ->
  zero_padded w a = zero_padded w b -> a = b.
Proof.
  induction w as [| w IH]; intros a b Ha Hb H.
  - simpl in Ha, Hb. lia.
  - simpl in H. apply string_app_inj in H;
      [| rewrite !zero_padded_length; reflexivity].
    destruct H as [Hdiv Hdig]. injection Hdig as Hdig.
    apply digit_inj in Hdig.
    rewrite Nat2Z.inj_succ, Z.pow_succ_r in Ha, Hb by lia.
    assert (Hq : a / 10 = b / 10).
    { apply IH; [| | exact Hdiv].
      - split; [apply Z.div_pos; lia | apply Z.div_lt_upper_bound; lia].
      - split; [apply Z.div_pos; lia | apply Z.div_lt_upper_bound; lia]. }
    rewrite (Z.div_mod a 10), (Z.div_mod b 10) by lia. congruence.
Qed.

(** X11.  The date string that [fetch_price] returns and the upsert looks
    rows up by has ten characters, and on dates of the calendar it tells
    dates apart: two bars have the same [close_date] only if they are of the
    same day. *)
Theorem date_isoformat_key (d1 d2 : date) :
  valid_date d1 -> valid_date d2 ->
  String.length (date_isoformat d1) = 10%nat /\
  (date_isoformat d1 = date_isoformat d2 -> d1 = d2).
Proof.
  intros (Hy1 & Hm1 & Hd1) (Hy2 & Hm2 & Hd2). unfold date_isoformat. split.
  - rewrite !string_length_app, !zero_padded_length. reflexivity.
  - intros H.
    apply string_app_inj in H; [| rewrite !zero_padded_length; reflexivity].
    destruct H as [Hy H].
    apply (string_app_inj "-" "-") in H; [| reflexivity].
    destruct H as [_ H].
    apply string_app_inj in H; [| rewrite !zero_padded_length; reflexivity].
    destruct H as [Hm H].
    apply (string_app_inj "-" "-") in H; [| reflexivity].
    destruct H as [_ Hd].
    apply zero_padded_inj in Hy; [| simpl; lia | simpl; lia].
    apply zero_padded_inj in Hm; [| simpl; lia | simpl; lia].
    apply zero_padded_inj in Hd; [| simpl; lia | simpl; lia].
    destruct d1, d2. simpl in *. congruence.
Qed.

Lemma date_isoformat_key_witness :
  String.length (date_isoformat (mkDate 2024 3 1)) = 10%nat.
Proof.
  refine (proj1 (date_isoformat_key (mkDate 2024 3 1) (mkDate 2024 3 2) _ _));
    unfold valid_date; simpl; lia.
Defined.

(** ** A whole run, end to end *)

(** The loader drops rows and repeats none: instruments of distinct ids
    stay of distinct ids. *)
Lemma loaded_ids_distinct (rows : list Saham.row) :
  NoDup (map Saham.id rows) -> NoDup (map Saham.id (filter wantedb rows)).
Proof.
  intros Hnd. induction rows as [| s rows IH]; [constructor |].
  simpl in Hnd. apply NoDup_cons_iff in Hnd. destruct Hnd as [Hs Hnd].
  simpl. destruct (wantedb s); [| exact (IH Hnd)].
  simpl. constructor; [| exact (IH Hnd)].
  intros Hin. apply Hs. apply in_map_iff in Hin.
  destruct Hin as (x & Hx & Hxin). apply filter_In in Hxin.
  rewrite <- Hx. apply in_map. exact (proj1 Hxin).
Qed.

(** X12.  With the store serving, [id] a key of both tables, every tracked
    instrument with a filled symbol for which the provider has a last bar
    ends the run with a row of its id, the bar's date and the bar's close in
    the price table, whatever happened to the other instruments. *)
Theorem run_once_saves_fetched (E : env) (w : world) :
  all_served E ->
  primary_key (harga w) ->
  NoDup (map Saham.id (saham w)) ->
  forall s sym p,
    In s (saham w) -> wanted s -> Saham.yahoo_symbol s = Some sym ->
    last_price (yf_history E sym "5d" "1d") = Some p ->
    holds_row (Saham.id s) (Price.date p) (Price.close p)
      (harga (snd (run_once E w))).
Proof.
  intros Hall Hk Hnd s sym p Hin Hw Hsym Hp.
  rewrite (run_once_loaded E w (Hall _)).
  match goal with
  | |- holds_row _ _ _ (harga (snd (status_phase E ?w1))) =>
      rewrite (status_phase_keeps_harga E (harga w1) w1 eq_refl)
  end.
  apply (loop_saves E _ Hall (loaded_ids_distinct _ Hnd)) with (sym := sym);
    try assumption.
  - apply filter_In. split; [exact Hin | apply wantedb_true; exact Hw].
  - destruct Hw as (_ & s' & Hs' & Hne & _). congruence.
Qed.

Lemma run_once_saves_fetched_witness :
  holds_row 3 "2024-03-01" 5200
    (harga (snd (run_once Scenario.batch_env Scenario.batch_store))).
Proof.
  refine (run_once_saves_fetched Scenario.batch_env Scenario.batch_store
            (fun n => eq_refl) _ _ Scenario.asii "ASII.JK"
            (Price.mk "2024-03-01" 5200) _ _ eq_refl eq_refl).
  - constructor.
  - simpl. repeat constructor; simpl; intros H;
      repeat (destruct H as [H | H]; try discriminate H); exact H.
  - right; right; left. reflexivity.
  - split; [reflexivity |]. exists "ASII.JK".
    repeat split; discriminate.
Defined.

(** ** The number of store requests *)

Section Budget.

Variable E : env.






End Budget.


